(** * gcp-sql-scheduler: the HTTP handlers of [main.go]

    A shallow embedding of the three handlers ([/start], [/stop], [/check]),
    of the status reader [checkStatusInstances] and of the two response
    writers, followed by the properties of the request validation, the state
    precondition and the response envelope.

    The handlers talk to the Cloud SQL Admin client and read the clock; these
    interactions are kept as explicit calls of a small program type, which is
    then run against an arbitrary provider. *)

From Stdlib Require Import ZArith String Ascii List DecimalString Lia Bool.
From stdpp Require Import base option strings gmap.

Set Warnings "-register-all".

Open Scope string_scope.
Open Scope Z_scope.

(** ** The Go libraries the source calls *)

Module Lib.

(** *** Errors ([error], [googleapi.Error], [fmt.Errorf]) *)

(** [*googleapi.Error]: the provider's status code and message, and the text
    its [Error()] method renders from them and from the fields the handlers
    never look at. *)
Record googleapi_Error := {
  Code : Z;
  Message : string;
  ErrorText : string
}.

(** A non-nil value of the interface type [error], by dynamic type:
    a [*googleapi.Error], the value built by [fmt.Errorf] with a [%w] verb
    (message and wrapped cause), or any other error with its message. *)
Inductive error :=
| GoogleapiError (e : googleapi_Error)
| WrapError (msg : string) (cause : error)
| ErrorString (msg : string).

(** The method [Error()]. *)
Definition Error (e : error) : string :=
  match e with
  | GoogleapiError g => ErrorText g
  | WrapError msg _ => msg
  | ErrorString msg => msg
  end.

(** [fmt.Errorf(prefix + "%w", err)]. *)
Definition Errorf_w (prefix : string) (err : error) : error :=
  WrapError (prefix ++ Error err) err.

(** A Go result pair [(value, err)] with the convention [err != nil]. *)
Inductive result (A : Type) :=
| Ok (a : A)
| Fail (err : error).
Arguments Ok {A} a.
Arguments Fail {A} err.

(** *** Dynamic values ([interface{}]) and [fmt] *)

(** The values the formatter's [err interface{}] parameter can hold. *)
Inductive any :=
| AnyNil
| AnyError (e : error)
| AnyString (s : string)
| AnyInt (n : Z)
| AnyBool (b : bool).

(** [fmt.Sprintf("%d", n)]. *)
Definition Sprintf_d (n : Z) : string := NilZero.string_of_int (Z.to_int n).

(** [fmt.Sprintf("%v", v)]. *)
Definition Sprintf_v (v : any) : string :=
  match v with
  | AnyNil => "<nil>"
  | AnyError e => Error e
  | AnyString s => s
  | AnyInt n => Sprintf_d n
  | AnyBool b => if b then "true" else "false"
  end.

(** *** JSON values as [encoding/json] decodes them into [interface{}] *)

Inductive json :=
| JNull
| JBool (b : bool)
| JNumber (n : Z)   (* a float64 in Go; the handlers never read its value *)
| JString (s : string)
| JArray (l : list json)
| JObject (members : list (string * json)).

(** The type assertion [v.(string)] on the result of a map lookup: the
    comma-ok form gives the zero string and [false] when the key is absent
    or the value is not a string. *)
Definition assert_string (v : option json) : string * bool :=
  match v with
  | Some (JString s) => (s, true)
  | _ => ("", false)
  end.

(** *** [net/http] *)

Definition MethodGet : string := "GET".
Definition MethodPost : string := "POST".

Definition StatusOK : Z := 200.
Definition StatusBadRequest : Z := 400.
Definition StatusUnauthorized : Z := 401.
Definition StatusMethodNotAllowed : Z := 405.
Definition StatusInternalServerError : Z := 500.

(** [http.StatusText]: the reason phrases of the IANA registry, the empty
    string for an unknown code. *)
Definition StatusText (code : Z) : string :=
  match code with
  | 100 => "Continue"
  | 101 => "Switching Protocols"
  | 102 => "Processing"
  | 103 => "Early Hints"
  | 200 => "OK"
  | 201 => "Created"
  | 202 => "Accepted"
  | 203 => "Non-Authoritative Information"
  | 204 => "No Content"
  | 205 => "Reset Content"
  | 206 => "Partial Content"
  | 207 => "Multi-Status"
  | 208 => "Already Reported"
  | 226 => "IM Used"
  | 300 => "Multiple Choices"
  | 301 => "Moved Permanently"
  | 302 => "Found"
  | 303 => "See Other"
  | 304 => "Not Modified"
  | 305 => "Use Proxy"
  | 307 => "Temporary Redirect"
  | 308 => "Permanent Redirect"
  | 400 => "Bad Request"
  | 401 => "Unauthorized"
  | 402 => "Payment Required"
  | 403 => "Forbidden"
  | 404 => "Not Found"
  | 405 => "Method Not Allowed"
  | 406 => "Not Acceptable"
  | 407 => "Proxy Authentication Required"
  | 408 => "Request Timeout"
  | 409 => "Conflict"
  | 410 => "Gone"
  | 411 => "Length Required"
  | 412 => "Precondition Failed"
  | 413 => "Request Entity Too Large"
  | 414 => "Request URI Too Long"
  | 415 => "Unsupported Media Type"
  | 416 => "Requested Range Not Satisfiable"
  | 417 => "Expectation Failed"
  | 418 => "I'm a teapot"
  | 421 => "Misdirected Request"
  | 422 => "Unprocessable Entity"
  | 423 => "Locked"
  | 424 => "Failed Dependency"
  | 425 => "Too Early"
  | 426 => "Upgrade Required"
  | 428 => "Precondition Required"
  | 429 => "Too Many Requests"
  | 431 => "Request Header Fields Too Large"
  | 451 => "Unavailable For Legal Reasons"
  | 500 => "Internal Server Error"
  | 501 => "Not Implemented"
  | 502 => "Bad Gateway"
  | 503 => "Service Unavailable"
  | 504 => "Gateway Timeout"
  | 505 => "HTTP Version Not Supported"
  | 506 => "Variant Also Negotiates"
  | 507 => "Insufficient Storage"
  | 508 => "Loop Detected"
  | 510 => "Not Extended"
  | 511 => "Network Authentication Required"
  | _ => ""
  end.

(** *** [time]: a clock reading and [Format(time.RFC3339)] *)

(** A [time.Time] as [Format] sees it: the civil date and time of the
    instant in its location, and the location's offset in seconds east of
    UTC. *)
Record Time := {
  year : Z;
  month : Z;
  day : Z;
  hour : Z;
  minute : Z;
  second : Z;
  offset : Z
}.

Fixpoint zeros (n : nat) : string :=
  match n with
  | O => ""
  | S n' => String "0" (zeros n')
  end.

(** [appendInt]: the decimal form of [x], zero-padded to [width] digits,
    after a minus sign when [x] is negative. *)
Definition appendInt (x : Z) (width : nat) : string :=
  let ds := Sprintf_d (Z.abs x) in
  (if x <? 0 then "-" else "") ++ zeros (width - String.length ds) ++ ds.

(** The zone of the layout element [Z07:00]. *)
Definition format_zone (off : Z) : string :=
  if off =? 0 then "Z"
  else
    let zone := Z.quot off 60 in
    if zone <? 0
    then "-" ++ appendInt (Z.quot (- zone) 60) 2 ++ ":" ++ appendInt (Z.rem (- zone) 60) 2
    else "+" ++ appendInt (Z.quot zone 60) 2 ++ ":" ++ appendInt (Z.rem zone 60) 2.

(** [t.Format(time.RFC3339)], layout [2006-01-02T15:04:05Z07:00]. *)
Definition Format_RFC3339 (t : Time) : string :=
  appendInt (year t) 4 ++ "-" ++ appendInt (month t) 2 ++ "-" ++ appendInt (day t) 2
  ++ "T" ++ appendInt (hour t) 2 ++ ":" ++ appendInt (minute t) 2 ++ ":"
  ++ appendInt (second t) 2 ++ format_zone (offset t).

(** *** Reading an RFC 3339 timestamp (RFC 3339, section 5.6) *)

Definition digit_val (c : ascii) : option Z :=
  let n := Z.of_N (N_of_ascii c) in
  if (48 <=? n) && (n <=? 57) then Some (n - 48) else None.

Definition num2 (a b : ascii) : option Z :=
  d1 ← digit_val a; d2 ← digit_val b; Some (10 * d1 + d2).

Definition num4 (a b c d : ascii) : option Z :=
  hi ← num2 a b; lo ← num2 c d; Some (100 * hi + lo).

Definition is_leap (y : Z) : bool :=
  (y mod 4 =? 0) && (negb (y mod 100 =? 0) || (y mod 400 =? 0)).

Definition days_in (y m : Z) : Z :=
  match m with
  | 2 => if is_leap y then 29 else 28
  | 4 | 6 | 9 | 11 => 30
  | _ => 31
  end.

Definition is_digit (c : ascii) : bool :=
  match digit_val c with Some _ => true | None => false end.

Fixpoint skip_digits (l : list ascii) : list ascii :=
  match l with
  | c :: l' => if is_digit c then skip_digits l' else l
  | [] => []
  end.

(** time-secfrac, optional: a dot and at least one digit. *)
Definition skip_secfrac (l : list ascii) : option (list ascii) :=
  match l with
  | "."%char :: c :: l' => if is_digit c then Some (skip_digits l') else None
  | "."%char :: [] => None
  | _ => Some l
  end.

(** time-offset: [Z], or a sign, two digits of hours, a colon and two
    digits of minutes; the result is in seconds east of UTC. *)
Definition parse_offset (l : list ascii) : option Z :=
  match l with
  | [c] => if Ascii.eqb c "Z" || Ascii.eqb c "z" then Some 0 else None
  | [sg; h1; h2; c; m1; m2] =>
      hh ← num2 h1 h2;
      mm ← num2 m1 m2;
      if Ascii.eqb c ":" && (hh <=? 23) && (mm <=? 59)
      then
        if Ascii.eqb sg "+" then Some (hh * 3600 + mm * 60)
        else if Ascii.eqb sg "-" then Some (- (hh * 3600 + mm * 60))
        else None
      else None
  | _ => None
  end.

(** The timestamp grammar with the field ranges of section 5.7; as in Go's
    [time.Parse], a seconds field of 60 is not accepted. *)
Definition parse_RFC3339 (s : string) : option Time :=
  match list_ascii_of_string s with
  | y1 :: y2 :: y3 :: y4 :: c1 :: m1 :: m2 :: c2 :: d1 :: d2 :: c3
      :: h1 :: h2 :: c4 :: mi1 :: mi2 :: c5 :: s1 :: s2 :: rest =>
      y ← num4 y1 y2 y3 y4;
      mo ← num2 m1 m2;
      d ← num2 d1 d2;
      h ← num2 h1 h2;
      mi ← num2 mi1 mi2;
      sc ← num2 s1 s2;
      zone ← skip_secfrac rest;
      off ← parse_offset zone;
      if Ascii.eqb c1 "-" && Ascii.eqb c2 "-"
         && (Ascii.eqb c3 "T" || Ascii.eqb c3 "t")
         && Ascii.eqb c4 ":" && Ascii.eqb c5 ":"
         && (1 <=? mo) && (mo <=? 12) && (1 <=? d) && (d <=? days_in y mo)
         && (h <=? 23) && (mi <=? 59) && (sc <=? 59)
      then Some {| year := y; month := mo; day := d; hour := h;
                   minute := mi; second := sc; offset := off |}
      else None
  | _ => None
  end.

(** The clock readings [time.Now()] can give: a date of the calendar in a
    four-digit year, a time of day, and a zone less than a day from UTC. *)
Definition wf_Time (t : Time) : Prop :=
  0 <= year t <= 9999 /\ 1 <= month t <= 12
  /\ 1 <= day t <= days_in (year t) (month t)
  /\ 0 <= hour t <= 23 /\ 0 <= minute t <= 59 /\ 0 <= second t <= 59
  /\ -86400 < offset t < 86400.

(** What is left of a reading once printed: the zone is cut to the minute. *)
Definition trunc_zone (t : Time) : Time :=
  {| year := year t; month := month t; day := day t; hour := hour t;
     minute := minute t; second := second t;
     offset := 60 * Z.quot (offset t) 60 |}.

(** *** [sqladmin]: the Cloud SQL Admin client *)

Module sqladmin.

Record Settings := {
  ActivationPolicy : string;
  Tier : string
}.

(** [sqladmin.DatabaseInstance], with the fields the source reads or
    sets; [Settings] is a pointer and may be nil. *)
Record DatabaseInstance := {
  Name : string;
  DatabaseVersion : string;
  Region : string;
  State : string;
  Settings_ : option Settings
}.

(** [sqladmin.Operation], the provider's answer to a patch. *)
Record Operation := {
  OperationName : string;
  OperationType : string;
  Status : string;
  TargetId : string;
  TargetProject : string
}.

(** The handle [*sqladmin.Service] returned by [sqladmin.NewService]. *)
Definition Service := nat.

End sqladmin.

End Lib.

(** ** The program: [main.go] *)

Module Main.
Import Lib.

(** *** Calls to the outside, programs and their runs *)

(** The calls a handler makes to the provider's client and to the clock,
    indexed by the type of their answer. *)
Inductive call : Type -> Type :=
| NewService (credentialsFile : string) : call (result sqladmin.Service)
| InstancesGet (svc : sqladmin.Service) (project instance : string)
    : call (result sqladmin.DatabaseInstance)
| InstancesPatch (svc : sqladmin.Service) (project instance : string)
    (body : sqladmin.DatabaseInstance) : call (result sqladmin.Operation)
| Now : call Time.

(** A program returns, panics, or makes a call and goes on with its
    answer. *)
Inductive prog (A : Type) : Type :=
| Ret (a : A)
| Panic (msg : string)
| Do {X : Type} (c : call X) (k : X -> prog A).
Arguments Ret {A} a.
Arguments Panic {A} msg.
Arguments Do {A X} c k.

Fixpoint bind {A B : Type} (p : prog A) (f : A -> prog B) : prog B :=
  match p with
  | Ret a => f a
  | Panic msg => Panic msg
  | Do c k => Do c (fun x => bind (k x) f)
  end.

Definition perform {X : Type} (c : call X) : prog X := Do c Ret.

Notation "x <- p ;; k" := (bind p (fun x => k))
  (at level 100, p at next level, right associativity).

(** A call together with the answer it got. *)
Inductive event :=
| Called {X : Type} (c : call X) (x : X).

Definition is_auth (e : event) : bool :=
  match e with
  | Called c _ => match c with NewService _ => true | _ => false end
  end.

Definition is_status_read (e : event) : bool :=
  match e with
  | Called c _ => match c with InstancesGet _ _ _ => true | _ => false end
  end.

Definition is_patch (e : event) : bool :=
  match e with
  | Called c _ => match c with InstancesPatch _ _ _ _ => true | _ => false end
  end.

(** The remote calls: everything but reading the clock. *)
Definition is_provider_call (e : event) : bool :=
  is_auth e || is_status_read e || is_patch e.

Inductive outcome (A : Type) :=
| Done (a : A)
| Panicked (msg : string).
Arguments Done {A} a.
Arguments Panicked {A} msg.

Section Run.
(** The outside world: any state, and any way to answer a call from it. *)
Context {World : Type}.
Variable answer : forall X : Type, call X -> World -> X * World.

Fixpoint run {A : Type} (p : prog A) (w : World)
  : outcome A * list event * World :=
  match p with
  | Ret a => (Done a, [], w)
  | Panic msg => (Panicked msg, [], w)
  | Do c k =>
      let (x, w1) := answer _ c w in
      let '(o, tr, w2) := run (k x) w1 in
      (o, Called c x :: tr, w2)
  end.
End Run.

(** *** Data of the service *)

Record SQLInstancesData := {
  Name : string;
  DatabaseVersion : string;
  Region : string;
  State : string;
  Tier : string
}.

(** The object [encoding/json] writes for a [SQLInstancesData], member
    names from the struct tags. *)
Definition json_of_SQLInstancesData (d : SQLInstancesData) : list (string * json) :=
  [ ("name", JString (Name d));
    ("database_version", JString (DatabaseVersion d));
    ("region", JString (Region d));
    ("state", JString (State d));
    ("tier", JString (Tier d)) ].

(** The values stored in a response map ([map[string]interface{}]). *)
Inductive field :=
| FInt (n : Z)
| FString (s : string)
| FInstance (d : SQLInstancesData)        (* a [*SQLInstancesData] *)
| FOperation (o : sqladmin.Operation).    (* a [sqladmin.Operation] *)

(** What a handler writes to its [http.ResponseWriter]: the Content-Type
    header, the status line and the map that is encoded as the body. *)
Record response := {
  content_type : string;
  status : Z;
  body : gmap string field
}.

(** The request, as far as the handlers read it: the method, and what
    [io.ReadAll(r.Body)] returns. *)
Record Request := {
  Method : string;
  Body : result string
}.

(** *** The response writers *)

Definition writeSuccessResponse (statusCode : Z) (message : string) (data : field)
  : prog response :=
  now <- perform Now ;;
  let response : gmap string field :=
    {[ "data" := data;
       "status_code" := FInt statusCode;
       "status_text" := FString (StatusText statusCode);
       "message" := FString message;
       "timestamp" := FString (Format_RFC3339 now) ]} in
  Ret {| content_type := "application/json"; status := statusCode; body := response |}.

(** The type switch of [writeErrorResponse]: error type and description. *)
Definition classify (err : any) : string * string :=
  match err with
  | AnyError (GoogleapiError e) => ("googleapi_" ++ Sprintf_d (Code e), Message e)
  | AnyError e => ("internal_error", Error e)
  | AnyString e => ("internal_error", e)
  | e => ("unknown_error", Sprintf_v e)
  end.

Definition writeErrorResponse (statusCode : Z) (message : string) (err : any)
  : prog response :=
  let '(errorType, errorDescription) := classify err in
  now <- perform Now ;;
  let response : gmap string field :=
    {[ "status_code" := FInt statusCode;
       "status_text" := FString (StatusText statusCode);
       "message" := FString message;
       "timestamp" := FString (Format_RFC3339 now);
       "error_type" := FString errorType;
       "error_description" := FString errorDescription ]} in
  Ret {| content_type := "application/json"; status := statusCode; body := response |}.

(** *** The status reader *)

Definition checkStatusInstances (projectID instanceID : string)
  : prog (result SQLInstancesData) :=
  res <- perform (NewService "service_account.json") ;;
  match res with
  | Fail err => Ret (Fail (Errorf_w "failed to find Service Account: " err))
  | Ok sqlService =>
      res <- perform (InstancesGet sqlService projectID instanceID) ;;
      match res with
      | Fail err =>
          Ret (Fail (Errorf_w "failed to get instance details, instances not found.: " err))
      | Ok instance =>
          match sqladmin.Settings_ instance with
          | None => Panic "invalid memory address or nil pointer dereference"
          | Some settings =>
              Ret (Ok {| Name := sqladmin.Name instance;
                         DatabaseVersion := sqladmin.DatabaseVersion instance;
                         Region := sqladmin.Region instance;
                         State := sqladmin.State instance;
                         Tier := sqladmin.Tier settings |})
          end
      end
  end.

(** *** The handlers *)

Section Handlers.

(** The process configuration, fixed by [init]. *)
Variables projectID instanceID : string.

(** [json.Unmarshal(body, &payload)] for a [map[string]interface{}]: the
    decoded map (empty for the literal null), or the decoder's error. *)
Variable json_Unmarshal : string -> result (gmap string json).

(** The body of a patch: only the activation policy is set. *)
Definition patch_body (activationPolicy : string) : sqladmin.DatabaseInstance :=
  {| sqladmin.Name := ""; sqladmin.DatabaseVersion := ""; sqladmin.Region := "";
     sqladmin.State := "";
     sqladmin.Settings_ :=
       Some {| sqladmin.ActivationPolicy := activationPolicy; sqladmin.Tier := "" |} |}.

Definition startInstanceHandler (r : Request) : prog response :=
  if negb (String.eqb (Method r) MethodPost)
  then writeErrorResponse StatusMethodNotAllowed "Method not allowed." (AnyString "")
  else
    res <- perform (NewService "service_account.json") ;;
    match res with
    | Fail err =>
        writeErrorResponse StatusUnauthorized "Service Account not found." (AnyError err)
    | Ok sqlService =>
        st <- checkStatusInstances projectID instanceID ;;
        match st with
        | Fail err =>
            writeErrorResponse StatusInternalServerError "Instances not found."
              (AnyString (Error err))
        | Ok _ =>
            match Body r with
            | Fail err =>
                writeErrorResponse StatusBadRequest "Failed to read request body." (AnyError err)
            | Ok body =>
                match json_Unmarshal body with
                | Fail err =>
                    writeErrorResponse StatusBadRequest "Invalid JSON format." (AnyError err)
                | Ok payload =>
                    let '(activationPolicy, ok) :=
                      assert_string (payload !! "ActivationPolicy") in
                    if negb ok || (negb (String.eqb activationPolicy "ALWAYS")
                                   && negb (String.eqb activationPolicy "NEVER"))
                    then
                      writeErrorResponse StatusBadRequest
                        "Invalid value for ActivationPolicy. Must be 'ALWAYS' or 'NEVER'."
                        (AnyString "")
                    else
                      res <- perform (InstancesPatch sqlService projectID instanceID
                                        (patch_body activationPolicy)) ;;
                      match res with
                      | Fail err =>
                          writeErrorResponse StatusInternalServerError
                            "Failed to start instance." (AnyError err)
                      | Ok doStartInstances =>
                          writeSuccessResponse StatusOK
                            "Instance successfully started. Check console for details."
                            (FOperation doStartInstances)
                      end
                end
            end
        end
    end.

Definition stopInstancesHandler (r : Request) : prog response :=
  if negb (String.eqb (Method r) MethodPost)
  then writeErrorResponse StatusMethodNotAllowed "Method not allowed." (AnyString "")
  else
    res <- perform (NewService "service_account.json") ;;
    match res with
    | Fail err =>
        writeErrorResponse StatusUnauthorized "Service Account not found." (AnyError err)
    | Ok sqlService =>
        st <- checkStatusInstances projectID instanceID ;;
        match st with
        | Fail err =>
            writeErrorResponse StatusInternalServerError "Instances not found."
              (AnyString (Error err))
        | Ok status =>
            if negb (String.eqb (State status) "RUNNABLE")
            then
              writeErrorResponse StatusBadRequest
                ("Instance currently in " ++ State status ++ " state.") (AnyString "")
            else
              match Body r with
              | Fail err =>
                  writeErrorResponse StatusBadRequest "Failed to read request body." (AnyError err)
              | Ok body =>
                  match json_Unmarshal body with
                  | Fail err =>
                      writeErrorResponse StatusBadRequest "Invalid JSON format." (AnyError err)
                  | Ok payload =>
                      let '(activationPolicy, ok) :=
                        assert_string (payload !! "ActivationPolicy") in
                      if negb ok || (negb (String.eqb activationPolicy "ALWAYS")
                                     && negb (String.eqb activationPolicy "NEVER"))
                      then
                        writeErrorResponse StatusBadRequest
                          "Invalid value for ActivationPolicy. Must be 'ALWAYS' or 'NEVER'."
                          (AnyString "")
                      else
                        res <- perform (InstancesPatch sqlService projectID instanceID
                                          (patch_body activationPolicy)) ;;
                        match res with
                        | Fail err =>
                            writeErrorResponse StatusInternalServerError
                              "Failed to stop instance." (AnyError err)
                        | Ok doStopInstances =>
                            writeSuccessResponse StatusOK
                              "Instance successfully stopped. Check console for details."
                              (FOperation doStopInstances)
                        end
                  end
              end
        end
    end.

Definition checkInstancesHandler (r : Request) : prog response :=
  if negb (String.eqb (Method r) MethodGet)
  then writeErrorResponse StatusMethodNotAllowed "Method not allowed." (AnyString "")
  else
    res <- perform (NewService "service_account.json") ;;
    match res with
    | Fail err =>
        writeErrorResponse StatusUnauthorized "Service Account not found." (AnyError err)
    | Ok _ =>
        st <- checkStatusInstances projectID instanceID ;;
        match st with
        | Fail err =>
            writeErrorResponse StatusInternalServerError "Instances not found."
              (AnyString (Error err))
        | Ok instance =>
            let responseData :=
              {| Name := Name instance;
                 DatabaseVersion := DatabaseVersion instance;
                 Region := Region instance;
                 State := State instance;
                 Tier := Tier instance |} in
            writeSuccessResponse StatusOK "Successfully fetch instances detail."
              (FInstance responseData)
        end
    end.

(** The routes registered by [main]. *)
Inductive route := RouteStop | RouteStart | RouteCheck.

Definition handler (rt : route) : Request -> prog response :=
  match rt with
  | RouteStop => stopInstancesHandler
  | RouteStart => startInstanceHandler
  | RouteCheck => checkInstancesHandler
  end.

(** The method each route accepts. *)
Definition method_of (rt : route) : string :=
  match rt with
  | RouteCheck => MethodGet
  | _ => MethodPost
  end.

End Handlers.

End Main.

Import Lib Main.

(** ** Reading a response *)

(** A member of the response map. *)
Definition member (r : response) (k : string) : option field := body r !! k.

(** The pair of members [error_type] and [error_description]. *)
Definition error_pair (r : response) : option (string * string) :=
  match member r "error_type", member r "error_description" with
  | Some (FString t), Some (FString d) => Some (t, d)
  | _, _ => None
  end.

Definition message_of (r : response) : option string :=
  match member r "message" with
  | Some (FString m) => Some m
  | _ => None
  end.

(** The response a run ends with, if it does not panic. *)
Definition written {W : Type} (o : outcome response * list event * W) : option response :=
  match o with
  | (Done r, _, _) => Some r
  | (Panicked _, _, _) => None
  end.

(** The calls made during a run. *)
Definition trace {W A : Type} (o : outcome A * list event * W) : list event :=
  snd (fst o).

(** The maps built by the two writers, for a given clock reading. *)
Definition success_envelope (statusCode : Z) (message : string) (data : field)
  (now : Time) : response :=
  {| content_type := "application/json"; status := statusCode;
     body := {[ "data" := data;
                "status_code" := FInt statusCode;
                "status_text" := FString (StatusText statusCode);
                "message" := FString message;
                "timestamp" := FString (Format_RFC3339 now) ]} |}.

Definition error_envelope (statusCode : Z) (message : string) (err : any)
  (now : Time) : response :=
  {| content_type := "application/json"; status := statusCode;
     body := {[ "status_code" := FInt statusCode;
                "status_text" := FString (StatusText statusCode);
                "message" := FString message;
                "timestamp" := FString (Format_RFC3339 now);
                "error_type" := FString (fst (classify err));
                "error_description" := FString (snd (classify err)) ]} |}.

(** The dynamic types the formatter tells apart. *)
Definition is_googleapi (e : error) : bool :=
  match e with GoogleapiError _ => true | _ => false end.

Definition is_error (v : any) : bool :=
  match v with AnyError _ => true | _ => false end.

Definition is_string (v : any) : bool :=
  match v with AnyString _ => true | _ => false end.

(** The error type and description the formatter writes for a cause. *)
Definition formatted {World : Type} (answer : forall X : Type, call X -> World -> X * World)
  (w : World) (statusCode : Z) (message : string) (err : any) : option (string * string) :=
  match written (run answer (writeErrorResponse statusCode message err) w) with
  | Some r => error_pair r
  | None => None
  end.

(** The projection of the provider's instance made by the status reader. *)
Definition snapshot (instance : sqladmin.DatabaseInstance) (settings : sqladmin.Settings)
  : SQLInstancesData :=
  {| Name := sqladmin.Name instance;
     DatabaseVersion := sqladmin.DatabaseVersion instance;
     Region := sqladmin.Region instance;
     State := sqladmin.State instance;
     Tier := sqladmin.Tier settings |}.

(** The messages of the rejections made by the body validation. *)
Definition body_rejections : list string :=
  [ "Failed to read request body.";
    "Invalid JSON format.";
    "Invalid value for ActivationPolicy. Must be 'ALWAYS' or 'NEVER'." ].

(** ** The outline of the handlers *)

Section Outline.
Variables projectID instanceID : string.
Variable json_Unmarshal : string -> result (gmap string json).

(** The policy a body asks for, when it asks for one the service accepts:
    the body decodes to a map whose [ActivationPolicy] is the string
    [ALWAYS] or the string [NEVER]. *)
Definition policy_of_body (body : string) : option string :=
  match json_Unmarshal body with
  | Ok payload =>
      match payload !! "ActivationPolicy" with
      | Some (JString s) =>
          if bool_decide (s = "ALWAYS" \/ s = "NEVER") then Some s else None
      | _ => None
      end
  | Fail _ => None
  end.

(** The end of [startInstanceHandler] and of [stopInstancesHandler], from
    [io.ReadAll] on; the two differ in their last two messages. *)
Definition patch_tail (sqlService : sqladmin.Service) (r : Request)
  (failed succeeded : string) : prog response :=
  match Body r with
  | Fail err =>
      writeErrorResponse StatusBadRequest "Failed to read request body." (AnyError err)
  | Ok body =>
      match json_Unmarshal body with
      | Fail err =>
          writeErrorResponse StatusBadRequest "Invalid JSON format." (AnyError err)
      | Ok payload =>
          let '(activationPolicy, ok) :=
            assert_string (payload !! "ActivationPolicy") in
          if negb ok || (negb (String.eqb activationPolicy "ALWAYS")
                         && negb (String.eqb activationPolicy "NEVER"))
          then
            writeErrorResponse StatusBadRequest
              "Invalid value for ActivationPolicy. Must be 'ALWAYS' or 'NEVER'."
              (AnyString "")
          else
            res <- perform (InstancesPatch sqlService projectID instanceID
                              (patch_body activationPolicy)) ;;
            match res with
            | Fail err => writeErrorResponse StatusInternalServerError failed (AnyError err)
            | Ok operation => writeSuccessResponse StatusOK succeeded (FOperation operation)
            end
      end
  end.

(** What a handler does with the result of the status reader. *)
Definition after_status (rt : route) (sqlService : sqladmin.Service) (r : Request)
  (st : result SQLInstancesData) : prog response :=
  match st with
  | Fail err =>
      writeErrorResponse StatusInternalServerError "Instances not found."
        (AnyString (Error err))
  | Ok status =>
      match rt with
      | RouteStart =>
          patch_tail sqlService r "Failed to start instance."
            "Instance successfully started. Check console for details."
      | RouteStop =>
          if negb (String.eqb (State status) "RUNNABLE")
          then
            writeErrorResponse StatusBadRequest
              ("Instance currently in " ++ State status ++ " state.") (AnyString "")
          else
            patch_tail sqlService r "Failed to stop instance."
              "Instance successfully stopped. Check console for details."
      | RouteCheck =>
          writeSuccessResponse StatusOK "Successfully fetch instances detail."
            (FInstance {| Name := Name status;
                          DatabaseVersion := DatabaseVersion status;
                          Region := Region status;
                          State := State status;
                          Tier := Tier status |})
      end
  end.

End Outline.

(** ** The envelope of every response *)

(** The status codes the handlers answer with. *)
Definition answered_codes : list Z :=
  [StatusOK; StatusBadRequest; StatusUnauthorized; StatusMethodNotAllowed;
   StatusInternalServerError].

(** Programs that, on every path that ends, end in one of the two writers
    with one of these codes. *)
Inductive emits : prog response -> Prop :=
| emits_error (code : Z) (message : string) (err : any) :
    In code answered_codes -> emits (writeErrorResponse code message err)
| emits_success (code : Z) (message : string) (data : field) :
    In code answered_codes -> emits (writeSuccessResponse code message data)
| emits_panic (msg : string) : emits (Panic msg)
| emits_do (X : Type) (c : call X) (k : X -> prog response) :
    (forall x : X, emits (k x)) -> emits (Do c k).

(** A response with the members every envelope has, stamped at [now]. *)
Definition stamped (now : Time) (resp : response) : Prop :=
  In (status resp) answered_codes
  /\ member resp "status_code" = Some (FInt (status resp))
  /\ member resp "status_text" = Some (FString (StatusText (status resp)))
  /\ member resp "timestamp" = Some (FString (Format_RFC3339 now)).

(** ** Digit fields *)

(** The integers below a bound, to check a property of a digit field on
    every value the field can take. *)
Fixpoint upto (n : nat) : list Z :=
  match n with
  | O => []
  | S k => Z.of_nat k :: upto k
  end.

(** An integer printed on two digits reads back as itself; the same on
    four digits. *)
Definition two_digits (x : Z) : bool :=
  match appendInt x 2 with
  | String a (String b EmptyString) =>
      match num2 a b with Some y => y =? x | None => false end
  | _ => false
  end.

Definition four_digits (x : Z) : bool :=
  match appendInt x 4 with
  | String a (String b (String c (String d EmptyString))) =>
      match num4 a b c d with Some y => y =? x | None => false end
  | _ => false
  end.

(** ** A scripted provider and a demo service, for the examples *)

(** One request's worth of answers: the handler's own authentication, the
    status reader's, the status read, the patch, and the clock. *)
Record Script := {
  auth_handler : result sqladmin.Service;
  auth_reader : result sqladmin.Service;
  get_answer : result sqladmin.DatabaseInstance;
  patch_answer : result sqladmin.Operation;
  clock : Time
}.

(** The world of a scripted provider counts the authentications so far. *)
Definition scripted (s : Script) (X : Type) (c : call X) (n : nat) : X * nat :=
  match c in call X return X * nat with
  | NewService _ =>
      (match n with O => auth_handler s | _ => auth_reader s end, S n)
  | InstancesGet _ _ _ => (get_answer s, n)
  | InstancesPatch _ _ _ _ => (patch_answer s, n)
  | Now => (clock s, n)
  end.

Definition noon : Time :=
  {| year := 2024; month := 2; day := 29; hour := 12; minute := 0; second := 0;
     offset := 25200 |}.

Definition instance_in (state : string) : sqladmin.DatabaseInstance :=
  {| sqladmin.Name := "db-main"; sqladmin.DatabaseVersion := "POSTGRES_15";
     sqladmin.Region := "asia-southeast2"; sqladmin.State := state;
     sqladmin.Settings_ :=
       Some {| sqladmin.ActivationPolicy := "ALWAYS"; sqladmin.Tier := "db-f1-micro" |} |}.

Definition patch_operation : sqladmin.Operation :=
  {| sqladmin.OperationName := "op-1"; sqladmin.OperationType := "UPDATE";
     sqladmin.Status := "PENDING"; sqladmin.TargetId := "db-main";
     sqladmin.TargetProject := "demo" |}.

(** Everything succeeds, the instance is in the given state. *)
Definition healthy (state : string) : Script :=
  {| auth_handler := Ok 1%nat; auth_reader := Ok 2%nat;
     get_answer := Ok (instance_in state);
     patch_answer := Ok patch_operation; clock := noon |}.

Definition not_found : googleapi_Error :=
  {| Code := 404; Message := "The Cloud SQL instance does not exist.";
     ErrorText := "googleapi: Error 404: The Cloud SQL instance does not exist., instanceDoesNotExist" |}.

(** The double quote, to write JSON bodies. *)
Definition dq : string := String (ascii_of_nat 34) "".

Definition body_of_policy (literal : string) : string :=
  "{" ++ dq ++ "ActivationPolicy" ++ dq ++ ":" ++ literal ++ "}".

(** [json.Unmarshal] on the bodies of the examples; any other body is taken
    as malformed. *)
Definition sample_Unmarshal (body : string) : result (gmap string json) :=
  if String.eqb body "{}" then Ok ∅
  else if String.eqb body "null" then Ok ∅
  else if String.eqb body (body_of_policy (dq ++ "ALWAYS" ++ dq))
  then Ok {[ "ActivationPolicy" := JString "ALWAYS" ]}
  else if String.eqb body (body_of_policy (dq ++ "NEVER" ++ dq))
  then Ok {[ "ActivationPolicy" := JString "NEVER" ]}
  else if String.eqb body (body_of_policy (dq ++ "always" ++ dq))
  then Ok {[ "ActivationPolicy" := JString "always" ]}
  else if String.eqb body (body_of_policy "1")
  then Ok {[ "ActivationPolicy" := JNumber 1 ]}
  else if String.eqb body (body_of_policy "true")
  then Ok {[ "ActivationPolicy" := JBool true ]}
  else Fail (ErrorString "unexpected end of JSON input").

Definition post (body : string) : Request := {| Method := "POST"; Body := Ok body |}.
Definition get : Request := {| Method := "GET"; Body := Ok "" |}.

(** A run of a route of the demo service: project [demo], instance
    [db-main], from the first authentication on. *)
Definition demo (s : Script) (rt : route) (r : Request)
  : outcome response * list event * nat :=
  run (scripted s) (handler "demo" "db-main" sample_Unmarshal rt r) 0%nat.

(** The lookup fails at the provider with a 404. *)
Definition lookup_fails : Script :=
  {| auth_handler := Ok 1%nat; auth_reader := Ok 2%nat;
     get_answer := Fail (GoogleapiError not_found);
     patch_answer := Ok patch_operation; clock := noon |}.

(** The credentials file is missing. *)
Definition no_credentials : Script :=
  {| auth_handler := Fail (ErrorString "open service_account.json: no such file or directory");
     auth_reader := Ok 2%nat;
     get_answer := Ok (instance_in "RUNNABLE");
     patch_answer := Ok patch_operation; clock := noon |}.

(** A body whose policy is in lower case. *)
Definition lowercase_body : string := body_of_policy (dq ++ "always" ++ dq).

(** A body that asks to keep the instance running. *)
Definition always_body : string := body_of_policy (dq ++ "ALWAYS" ++ dq).

Definition running : SQLInstancesData :=
  snapshot (instance_in "RUNNABLE")
    {| sqladmin.ActivationPolicy := "ALWAYS"; sqladmin.Tier := "db-f1-micro" |}.

(** The answer of the demo service to the empty object on [/start]. *)
Definition policy_rejection : response :=
  error_envelope 400 "Invalid value for ActivationPolicy. Must be 'ALWAYS' or 'NEVER'."
    (AnyString "") noon.

(** ** Start-up: [init] and [main] *)

Module Boot.

(** [os.Getenv]: the value of the variable, the empty string when it is not
    set. *)
Definition Getenv (env : gmap string string) (key : string) : string :=
  default "" (env !! key).

(** [godotenv.Load(".env")], given what reading and parsing the file gives:
    the variables of the file are added to the environment, a variable the
    environment already has keeps its value; when the file cannot be read
    or parsed the environment is left as it is and the error is returned. *)
Definition godotenv_Load (file : result (gmap string string))
  (env : gmap string string) : gmap string string * option error :=
  match file with
  | Ok vars => (env ∪ vars, None)
  | Fail err => (env, Some err)
  end.

(** The package variables [projectID], [instanceID] and [port]. *)
Record Config := {
  projectID : string;
  instanceID : string;
  port : string
}.

(** [init]: the configuration, and the lines printed by [log.Print]. *)
Definition init (dotenv : result (gmap string string)) (env : gmap string string)
  : Config * list string :=
  let '(env, logged) :=
    if String.eqb (Getenv env "ENV") "local"
    then
      match godotenv_Load dotenv env with
      | (env', Some _) => (env', ["Error loading .env file"])
      | (env', None) => (env', [])
      end
    else (env, []) in
  let port := Getenv env "PORT" in
  ({| projectID := Getenv env "PROJECT_ID";
      instanceID := Getenv env "INSTANCE_ID";
      port := if String.eqb port "" then "80" else port |},
   logged).

(** What [main] sets up: the patterns registered with [http.HandleFunc], in
    order, the line it prints and the address it listens on. *)
Record Server := {
  patterns : list (string * route);
  banner : string;
  address : string
}.

Definition main (cfg : Config) : Server :=
  {| patterns := [("/stop", RouteStop); ("/start", RouteStart); ("/check", RouteCheck)];
     banner := "Server running at http://localhost:" ++ port cfg;
     address := ":" ++ port cfg |}.

(** The handler the default mux runs for a request, from the request's
    [r.URL.Path], that is, the path of the request line as [net/http] has
    decoded it: a pattern with no trailing slash stands for that path
    alone. *)
Definition served (srv : Server) (path : string) : option route :=
  snd <$> find (fun p => String.eqb (fst p) path) (patterns srv).

(** The program run for a request whose [r.URL.Path] is [path], if a handler
    is registered for it. *)
Definition serve (cfg : Config) (json_Unmarshal : string -> result (gmap string json))
  (path : string) (r : Request) : option (prog response) :=
  match served (main cfg) path with
  | Some rt => Some (handler (projectID cfg) (instanceID cfg) json_Unmarshal rt r)
  | None => None
  end.

End Boot.

(** ** Reading a trace *)

Inductive kind := KAuth | KGet | KPatch | KNow.

Definition kind_of (e : event) : kind :=
  match e with
  | Called c _ =>
      match c with
      | NewService _ => KAuth
      | InstancesGet _ _ _ => KGet
      | InstancesPatch _ _ _ _ => KPatch
      | Now => KNow
      end
  end.

(** The arguments of a patch call: service, project, instance, body. *)
Definition patch_of (e : event)
  : option (sqladmin.Service * string * string * sqladmin.DatabaseInstance) :=
  match e with
  | Called c _ =>
      match c with
      | InstancesPatch svc project instance body => Some (svc, project, instance, body)
      | _ => None
      end
  end.

Definition patches (tr : list event)
  : list (sqladmin.Service * string * string * sqladmin.DatabaseInstance) :=
  omap patch_of tr.

(** The arguments of a status read: service, project, instance. *)
Definition status_read_of (e : event) : option (sqladmin.Service * string * string) :=
  match e with
  | Called c _ =>
      match c with
      | InstancesGet svc project instance => Some (svc, project, instance)
      | _ => None
      end
  end.

Definition status_reads (tr : list event) : list (sqladmin.Service * string * string) :=
  omap status_read_of tr.

(** The kinds of the calls of a run, in order. *)
Definition kinds {W A : Type} (o : outcome A * list event * W) : list kind :=
  map kind_of (trace o).

(** The message of a failed patch, per route. *)
Definition failed_message (rt : route) : string :=
  match rt with
  | RouteStop => "Failed to stop instance."
  | _ => "Failed to start instance."
  end.

Definition succeeded_message (rt : route) : string :=
  match rt with
  | RouteStop => "Instance successfully stopped. Check console for details."
  | _ => "Instance successfully started. Check console for details."
  end.

(** The names of the members of a response. *)
Definition members (resp : response) : gset string := dom (body resp).

(** ** More scripts *)

Definition forbidden : googleapi_Error :=
  {| Code := 403; Message := "The client is not authorized to make this request.";
     ErrorText := "googleapi: Error 403: The client is not authorized to make this request., notAuthorized" |}.

(** The patch is refused by the provider. *)
Definition patch_refused : Script :=
  {| auth_handler := Ok 1%nat; auth_reader := Ok 2%nat;
     get_answer := Ok (instance_in "RUNNABLE");
     patch_answer := Fail (GoogleapiError forbidden); clock := noon |}.

(** The status reader cannot authenticate, the handler could. *)
Definition reader_locked_out : Script :=
  {| auth_handler := Ok 1%nat;
     auth_reader := Fail (ErrorString "oauth2: cannot fetch token");
     get_answer := Ok (instance_in "RUNNABLE");
     patch_answer := Ok patch_operation; clock := noon |}.

(** The provider returns an instance without settings. *)
Definition bare_instance : sqladmin.DatabaseInstance :=
  {| sqladmin.Name := "db-main"; sqladmin.DatabaseVersion := "POSTGRES_15";
     sqladmin.Region := "asia-southeast2"; sqladmin.State := "RUNNABLE";
     sqladmin.Settings_ := None |}.

Definition no_settings : Script :=
  {| auth_handler := Ok 1%nat; auth_reader := Ok 2%nat;
     get_answer := Ok bare_instance;
     patch_answer := Ok patch_operation; clock := noon |}.

(** A POST whose body cannot be read. *)
Definition broken_post : Request :=
  {| Method := "POST"; Body := Fail (ErrorString "unexpected EOF") |}.

Definition never_body : string := body_of_policy (dq ++ "NEVER" ++ dq).

(** An environment in local mode that sets the project to the empty string
    and the port to nothing, and a file that sets all three variables. *)
Definition local_env : gmap string string :=
  {[ "ENV" := "local"; "PROJECT_ID" := ""; "PORT" := "" ]}.

Definition env_file : gmap string string :=
  {[ "PROJECT_ID" := "other"; "INSTANCE_ID" := "db-main"; "PORT" := "8080" ]}.

(** The environment of a deployment: no mode, the three variables set. *)
Definition deployed_env : gmap string string :=
  {[ "PROJECT_ID" := "demo"; "INSTANCE_ID" := "db-main"; "PORT" := "8080" ]}.

(** * Properties *)

(** ** Runs of programs *)

Section RunFacts.
Context {World : Type}.
Variable answer : forall X : Type, call X -> World -> X * World.

Lemma run_bind {A B : Type} (p : prog A) (f : A -> prog B) (w : World) :
  run answer (bind p f) w =
  match run answer p w with
  | (Done a, tr, w1) =>
      let '(o, tr2, w2) := run answer (f a) w1 in (o, (tr ++ tr2)%list, w2)
  | (Panicked msg, tr, w1) => (Panicked msg, tr, w1)
  end.
Proof.
  revert w. induction p as [a | msg | X c k IH]; intros w; simpl.
  - destruct (run answer (f a) w) as [[o tr] w2]. reflexivity.
  - reflexivity.
  - destruct (answer X c w) as [x w1]. rewrite IH.
    destruct (run answer (k x) w1) as [[[a | msg] tr] w2]; [|reflexivity].
    destruct (run answer (f a) w2) as [[o tr2] w3]. reflexivity.
Qed.

Lemma run_writeSuccessResponse statusCode message data w :
  run answer (writeSuccessResponse statusCode message data) w =
  (Done (success_envelope statusCode message data (fst (answer _ Now w))),
   [Called Now (fst (answer _ Now w))], snd (answer _ Now w)).
Proof.
  unfold writeSuccessResponse, perform. simpl.
  destruct (answer Time Now w) as [now w1]. reflexivity.
Qed.

Lemma run_writeErrorResponse statusCode message err w :
  run answer (writeErrorResponse statusCode message err) w =
  (Done (error_envelope statusCode message err (fst (answer _ Now w))),
   [Called Now (fst (answer _ Now w))], snd (answer _ Now w)).
Proof.
  unfold writeErrorResponse, error_envelope, perform.
  destruct (classify err) as [ty desc]. simpl.
  destruct (answer Time Now w) as [now w1]. reflexivity.
Qed.

End RunFacts.

Lemma member_error_envelope statusCode message err now :
  member (error_envelope statusCode message err now) "status_code" = Some (FInt statusCode)
  /\ member (error_envelope statusCode message err now) "status_text"
     = Some (FString (StatusText statusCode))
  /\ member (error_envelope statusCode message err now) "message" = Some (FString message)
  /\ member (error_envelope statusCode message err now) "timestamp"
     = Some (FString (Format_RFC3339 now))
  /\ member (error_envelope statusCode message err now) "error_type"
     = Some (FString (fst (classify err)))
  /\ member (error_envelope statusCode message err now) "error_description"
     = Some (FString (snd (classify err)))
  /\ member (error_envelope statusCode message err now) "data" = None.
Proof.
  unfold member, error_envelope; simpl. repeat split; reflexivity.
Qed.

(** ** The error taxonomy of [writeErrorResponse] *)

Lemma formatted_classify {World : Type} answer (w : World) statusCode message err :
  formatted answer w statusCode message err = Some (classify err).
Proof.
  unfold formatted. rewrite run_writeErrorResponse. simpl.
  unfold error_pair.
  destruct (member_error_envelope statusCode message err (fst (answer Time Now w)))
    as (_ & _ & _ & _ & -> & -> & _).
  destruct (classify err); reflexivity.
Qed.

(** C1. The formatter classifies its cause four ways, by the cause's shape
    alone: a [*googleapi.Error] gives [googleapi_<code>] and the provider's
    message; any other error gives [internal_error] and its message text; a
    string gives [internal_error] and the string; every other value gives
    [unknown_error] and its [%v] rendering. *)
Theorem error_classification_four_way {World : Type}
  (answer : forall X : Type, call X -> World -> X * World) (w : World)
  (statusCode : Z) (message : string) :
  (forall g : googleapi_Error,
      formatted answer w statusCode message (AnyError (GoogleapiError g))
      = Some ("googleapi_" ++ Sprintf_d (Code g), Message g))
  /\ (forall e : error, is_googleapi e = false ->
      formatted answer w statusCode message (AnyError e)
      = Some ("internal_error", Error e))
  /\ (forall s : string,
      formatted answer w statusCode message (AnyString s) = Some ("internal_error", s))
  /\ (forall v : any, is_error v = false -> is_string v = false ->
      formatted answer w statusCode message v = Some ("unknown_error", Sprintf_v v)).
Proof.
  repeat split; intros; rewrite formatted_classify.
  - reflexivity.
  - destruct e; [discriminate | reflexivity | reflexivity].
  - reflexivity.
  - destruct v; try discriminate; reflexivity.
Qed.

Lemma error_classification_four_way_witness :
  formatted (scripted (healthy "RUNNABLE")) 0%nat 500 "Failed to start instance."
    (AnyError (GoogleapiError not_found))
  = Some ("googleapi_404", "The Cloud SQL instance does not exist.")
  /\ formatted (scripted (healthy "RUNNABLE")) 0%nat 500 "Failed to start instance."
       (AnyError (Errorf_w "dial: " (GoogleapiError not_found)))
     = Some ("internal_error",
             "dial: googleapi: Error 404: The Cloud SQL instance does not exist., instanceDoesNotExist")
  /\ formatted (scripted (healthy "RUNNABLE")) 0%nat 405 "Method not allowed." (AnyString "")
     = Some ("internal_error", "")
  /\ formatted (scripted (healthy "RUNNABLE")) 0%nat 500 "x" AnyNil
     = Some ("unknown_error", "<nil>").
Proof.
  pose proof (error_classification_four_way (scripted (healthy "RUNNABLE")) 0%nat 500
                "Failed to start instance.") as (H1 & H2 & _).
  pose proof (error_classification_four_way (scripted (healthy "RUNNABLE")) 0%nat 405
                "Method not allowed.") as (_ & _ & H3 & _).
  pose proof (error_classification_four_way (scripted (healthy "RUNNABLE")) 0%nat 500
                "x") as (_ & _ & _ & H4).
  split; [exact (H1 not_found)|].
  split; [exact (H2 (Errorf_w "dial: " (GoogleapiError not_found)) eq_refl)|].
  split; [exact (H3 "")|].
  exact (H4 AnyNil eq_refl eq_refl).
Defined.

(** ** Running the handlers *)

Arguments writeErrorResponse : simpl never.
Arguments writeSuccessResponse : simpl never.
Arguments checkStatusInstances : simpl never.
Arguments error_envelope : simpl never.
Arguments success_envelope : simpl never.

Section HandlerFacts.
Context {World : Type}.
Variable answer : forall X : Type, call X -> World -> X * World.
Variables projectID instanceID : string.
Variable json_Unmarshal : string -> result (gmap string json).

Abbreviation credentials := (NewService "service_account.json").
Abbreviation handle := (handler projectID instanceID json_Unmarshal).
Abbreviation the_tail := (patch_tail projectID instanceID json_Unmarshal).
Abbreviation the_next := (after_status projectID instanceID json_Unmarshal).

Lemma run_perform {X : Type} (c : call X) (w : World) :
  run answer (perform c) w
  = (Done (fst (answer X c w)), [Called c (fst (answer X c w))], snd (answer X c w)).
Proof. simpl. destruct (answer X c w); reflexivity. Qed.

(** Every handler has the same outline. *)
Lemma handler_outline (rt : route) (r : Request) :
  handle rt r =
  if negb (String.eqb (Method r) (method_of rt))
  then writeErrorResponse StatusMethodNotAllowed "Method not allowed." (AnyString "")
  else
    res <- perform credentials ;;
    match res with
    | Fail err =>
        writeErrorResponse StatusUnauthorized "Service Account not found." (AnyError err)
    | Ok sqlService =>
        st <- checkStatusInstances projectID instanceID ;;
        the_next rt sqlService r st
    end.
Proof. destruct rt; reflexivity. Qed.

Lemma run_wrong_method (rt : route) (r : Request) (w : World) :
  Method r <> method_of rt ->
  run answer (handle rt r) w
  = run answer (writeErrorResponse StatusMethodNotAllowed "Method not allowed."
                  (AnyString "")) w.
Proof.
  intros Hm. apply String.eqb_neq in Hm. rewrite handler_outline, Hm. reflexivity.
Qed.

Lemma run_auth_failed (rt : route) (r : Request) (w w1 : World) (err : error) :
  Method r = method_of rt ->
  answer _ credentials w = (Fail err, w1) ->
  run answer (handle rt r) w
  = (Done (error_envelope StatusUnauthorized "Service Account not found."
             (AnyError err) (fst (answer _ Now w1))),
     [Called credentials (Fail err); Called Now (fst (answer _ Now w1))],
     snd (answer _ Now w1)).
Proof.
  intros Hm Ha. apply String.eqb_eq in Hm.
  rewrite handler_outline, Hm. cbv [negb].
  rewrite run_bind, run_perform, Ha. cbv [fst snd].
  rewrite run_writeErrorResponse. reflexivity.
Qed.

Lemma run_authenticated (rt : route) (r : Request) (w w1 : World)
  (svc : sqladmin.Service) :
  Method r = method_of rt ->
  answer _ credentials w = (Ok svc, w1) ->
  run answer (handle rt r) w
  = match run answer (checkStatusInstances projectID instanceID) w1 with
    | (Done st, tr, w2) =>
        let '(o, tr2, w3) := run answer (the_next rt svc r st) w2 in
        (o, (Called credentials (Ok svc) :: tr ++ tr2)%list, w3)
    | (Panicked msg, tr, w2) => (Panicked msg, Called credentials (Ok svc) :: tr, w2)
    end.
Proof.
  intros Hm Ha. apply String.eqb_eq in Hm.
  rewrite handler_outline, Hm. cbv [negb].
  rewrite run_bind, run_perform, Ha. cbv [fst snd].
  rewrite run_bind.
  destruct (run answer (checkStatusInstances projectID instanceID) w1)
    as [[[st | msg] tr] w2]; [|reflexivity].
  destruct (run answer (the_next rt svc r st) w2) as [[o tr2] w3]. reflexivity.
Qed.

(** The status reader, case by case. *)
Lemma run_checkStatusInstances (w : World) :
  run answer (checkStatusInstances projectID instanceID) w =
  let (res, w1) := answer _ credentials w in
  match res with
  | Fail err =>
      (Done (Fail (Errorf_w "failed to find Service Account: " err)),
       [Called credentials res], w1)
  | Ok svc =>
      let (got, w2) := answer _ (InstancesGet svc projectID instanceID) w1 in
      match got with
      | Fail err =>
          (Done (Fail (Errorf_w "failed to get instance details, instances not found.: " err)),
           [Called credentials res; Called (InstancesGet svc projectID instanceID) got], w2)
      | Ok instance =>
          match sqladmin.Settings_ instance with
          | None =>
              (Panicked "invalid memory address or nil pointer dereference",
               [Called credentials res; Called (InstancesGet svc projectID instanceID) got],
               w2)
          | Some settings =>
              (Done (Ok {| Name := sqladmin.Name instance;
                           DatabaseVersion := sqladmin.DatabaseVersion instance;
                           Region := sqladmin.Region instance;
                           State := sqladmin.State instance;
                           Tier := sqladmin.Tier settings |}),
               [Called credentials res; Called (InstancesGet svc projectID instanceID) got],
               w2)
          end
      end
  end.
Proof.
  unfold checkStatusInstances. simpl.
  destruct (answer _ credentials w) as [[svc | err] w1]; [|reflexivity].
  simpl. destruct (answer _ (InstancesGet svc projectID instanceID) w1)
    as [[instance | err] w2]; [|reflexivity].
  simpl. destruct (sqladmin.Settings_ instance); reflexivity.
Qed.

(** The status reader never patches. *)
Lemma checkStatusInstances_no_patch (w : World) :
  existsb is_patch (trace (run answer (checkStatusInstances projectID instanceID) w))
  = false.
Proof.
  rewrite run_checkStatusInstances.
  destruct (answer _ credentials w) as [[svc | err] w1]; [|reflexivity].
  destruct (answer _ (InstancesGet svc projectID instanceID) w1)
    as [[instance | err] w2]; [|reflexivity].
  destruct (sqladmin.Settings_ instance); reflexivity.
Qed.

(** The policy test of the handlers against [policy_of_body]. *)
Lemma policy_test (payload : gmap string json) :
  let '(activationPolicy, ok) := assert_string (payload !! "ActivationPolicy") in
  negb ok || (negb (String.eqb activationPolicy "ALWAYS")
              && negb (String.eqb activationPolicy "NEVER"))
  = match payload !! "ActivationPolicy" with
    | Some (JString s) => negb (bool_decide (s = "ALWAYS" \/ s = "NEVER"))
    | _ => true
    end.
Proof.
  destruct (payload !! "ActivationPolicy") as [[ | b | n | s | l | m] | ]; try reflexivity.
  cbv [assert_string negb orb].
  destruct (String.eqb_spec s "ALWAYS") as [-> | Ha]; [reflexivity|].
  destruct (String.eqb_spec s "NEVER") as [-> | Hn]; [reflexivity|].
  rewrite bool_decide_eq_false_2; [reflexivity | intros [? | ?]; contradiction].
Qed.

Lemma run_patch_tail_unreadable svc r failed succeeded (w : World) (err : error) :
  Body r = Fail err ->
  run answer (the_tail svc r failed succeeded) w
  = run answer (writeErrorResponse StatusBadRequest "Failed to read request body."
                  (AnyError err)) w.
Proof. intros Hb. unfold patch_tail. rewrite Hb. reflexivity. Qed.

Lemma run_patch_tail_rejected svc r failed succeeded (w : World) (body : string) :
  Body r = Ok body ->
  policy_of_body json_Unmarshal body = None ->
  exists (msg : string) (cause : any),
    (msg = "Invalid JSON format."
     \/ msg = "Invalid value for ActivationPolicy. Must be 'ALWAYS' or 'NEVER'.")
    /\ run answer (the_tail svc r failed succeeded) w
       = run answer (writeErrorResponse StatusBadRequest msg cause) w.
Proof.
  intros Hb Hp. unfold patch_tail, policy_of_body in *. rewrite Hb.
  destruct (json_Unmarshal body) as [payload | err].
  - pose proof (policy_test payload) as Ht.
    destruct (assert_string (payload !! "ActivationPolicy")) as [ap ok].
    rewrite Ht.
    eexists _, _; split; [right; reflexivity|].
    destruct (payload !! "ActivationPolicy") as [[ | b | n | s | l | m] | ];
      try reflexivity.
    destruct (bool_decide (s = "ALWAYS" \/ s = "NEVER")); [discriminate | reflexivity].
  - eexists _, _; split; [left; reflexivity | reflexivity].
Qed.

Lemma run_patch_tail_accepted svc r failed succeeded (w : World) (body ap : string) :
  Body r = Ok body ->
  policy_of_body json_Unmarshal body = Some ap ->
  run answer (the_tail svc r failed succeeded) w
  = let (res, w1) := answer _ (InstancesPatch svc projectID instanceID (patch_body ap)) w in
    (Done match res with
          | Fail err =>
              error_envelope StatusInternalServerError failed (AnyError err)
                (fst (answer _ Now w1))
          | Ok operation =>
              success_envelope StatusOK succeeded (FOperation operation)
                (fst (answer _ Now w1))
          end,
     [Called (InstancesPatch svc projectID instanceID (patch_body ap)) res;
      Called Now (fst (answer _ Now w1))],
     snd (answer _ Now w1)).
Proof.
  intros Hb Hp. unfold patch_tail, policy_of_body in *. rewrite Hb.
  destruct (json_Unmarshal body) as [payload | err]; [|discriminate].
  pose proof (policy_test payload) as Ht.
  destruct (assert_string (payload !! "ActivationPolicy")) as [ap' ok] eqn:Has.
  rewrite Ht.
  destruct (payload !! "ActivationPolicy") as [[ | b | n | s | l | m] | ];
    try discriminate.
  destruct (bool_decide (s = "ALWAYS" \/ s = "NEVER")); [|discriminate].
  injection Hp as ->. injection Has as <- _.
  cbv [negb]. rewrite run_bind, run_perform.
  destruct (answer _ (InstancesPatch svc projectID instanceID (patch_body ap)) w)
    as [[operation | err] w1]; cbv [fst snd].
  - rewrite run_writeSuccessResponse. reflexivity.
  - rewrite run_writeErrorResponse. reflexivity.
Qed.

(** C5. A request with the wrong method (anything but POST on [/start] and
    [/stop], anything but GET on [/check]) is answered 405, and the handler
    makes no call to the provider: no authentication, no status read, no
    patch. *)
Theorem wrong_method_is_405_without_provider_call
  (rt : route) (r : Request) (w : World) :
  Method r <> method_of rt ->
  exists resp : response,
    written (run answer (handle rt r) w) = Some resp
    /\ status resp = 405
    /\ member resp "status_code" = Some (FInt 405)
    /\ message_of resp = Some "Method not allowed."
    /\ existsb is_provider_call (trace (run answer (handle rt r) w)) = false.
Proof.
  intros Hm.
  pose proof (run_wrong_method rt r w Hm) as Hrun.
  rewrite Hrun, run_writeErrorResponse.
  eexists; split; [reflexivity|].
  repeat split.
Qed.


(** C9. When the handler's own authentication fails, every endpoint answers
    401; the error type is [internal_error], or [googleapi_<code>] when the
    failure is a [*googleapi.Error]; nothing is called after the failed
    authentication but the clock: no status read, no patch. *)
Theorem failed_authentication_is_401
  (rt : route) (r : Request) (w w1 : World) (err : error) :
  Method r = method_of rt ->
  answer _ credentials w = (Fail err, w1) ->
  exists (resp : response) (now : Time),
    written (run answer (handle rt r) w) = Some resp
    /\ status resp = 401
    /\ member resp "status_code" = Some (FInt 401)
    /\ error_pair resp
       = Some (match err with
               | GoogleapiError g => ("googleapi_" ++ Sprintf_d (Code g), Message g)
               | _ => ("internal_error", Error err)
               end)
    /\ trace (run answer (handle rt r) w)
       = [Called credentials (Fail err); Called Now now]
    /\ existsb is_status_read (trace (run answer (handle rt r) w)) = false
    /\ existsb is_patch (trace (run answer (handle rt r) w)) = false.
Proof.
  intros Hm Ha. rewrite (run_auth_failed rt r w w1 err Hm Ha).
  eexists; eexists; split; [reflexivity|].
  split; [reflexivity|]. split; [reflexivity|].
  split; [|repeat split].
  unfold error_pair.
  destruct (member_error_envelope StatusUnauthorized "Service Account not found."
              (AnyError err) (fst (answer Time Now w1)))
    as (_ & _ & _ & _ & -> & -> & _).
  destruct err; reflexivity.
Qed.

(** C10. When the status reader fails, the handler answers 500 with error
    type [internal_error] and the reader's message as description, whatever
    the failure underneath: the handler hands the formatter the text
    [err.Error()], so that a [*googleapi.Error] of the lookup is never
    reported as [googleapi_<code>]. The reader's error is always a wrapping
    of the cause the provider's client returned. *)
Theorem failed_status_fetch_is_internal_error
  (rt : route) (r : Request) (w w1 w2 : World) (svc : sqladmin.Service)
  (err : error) (tr : list event) :
  Method r = method_of rt ->
  answer _ credentials w = (Ok svc, w1) ->
  run answer (checkStatusInstances projectID instanceID) w1 = (Done (Fail err), tr, w2) ->
  exists resp : response,
    written (run answer (handle rt r) w) = Some resp
    /\ status resp = 500
    /\ message_of resp = Some "Instances not found."
    /\ error_pair resp = Some ("internal_error", Error err)
    /\ (exists (prefix : string) (cause : error),
          err = WrapError (prefix ++ Error cause) cause
          /\ Error err = prefix ++ Error cause)
    /\ existsb is_patch (trace (run answer (handle rt r) w)) = false.
Proof.
  intros Hm Ha Hs.
  rewrite (run_authenticated rt r w w1 svc Hm Ha), Hs.
  cbv [after_status]. rewrite run_writeErrorResponse.
  eexists; split; [reflexivity|].
  split; [reflexivity|]. split; [reflexivity|]. split; [reflexivity|].
  split.
  - rewrite run_checkStatusInstances in Hs.
    destruct (answer _ credentials w1) as [[svc2 | e1] w1'].
    + destruct (answer _ (InstancesGet svc2 projectID instanceID) w1')
        as [[instance | e2] w2'].
      * destruct (sqladmin.Settings_ instance); discriminate.
      * injection Hs as <- _ _. eexists _, e2. split; reflexivity.
    + injection Hs as <- _ _. eexists _, e1. split; reflexivity.
  - pose proof (checkStatusInstances_no_patch w1) as Hn. rewrite Hs in Hn.
    unfold trace in *; simpl in *.
    rewrite existsb_app, Hn. reflexivity.
Qed.

(** C4. On [/stop], when the status reader succeeds with a state other than
    [RUNNABLE], the answer is 400 with the message
    [Instance currently in <state> state.], and no patch is made. *)
Theorem stop_rejects_every_state_but_runnable
  (r : Request) (w w1 w2 : World) (svc : sqladmin.Service)
  (st : SQLInstancesData) (tr : list event) :
  Method r = "POST" ->
  answer _ credentials w = (Ok svc, w1) ->
  run answer (checkStatusInstances projectID instanceID) w1 = (Done (Ok st), tr, w2) ->
  State st <> "RUNNABLE" ->
  exists resp : response,
    written (run answer (stopInstancesHandler projectID instanceID json_Unmarshal r) w)
    = Some resp
    /\ status resp = 400
    /\ member resp "status_code" = Some (FInt 400)
    /\ message_of resp = Some ("Instance currently in " ++ State st ++ " state.")
    /\ existsb is_patch
         (trace (run answer (stopInstancesHandler projectID instanceID json_Unmarshal r) w))
       = false.
Proof.
  intros Hm Ha Hs Hst.
  change (stopInstancesHandler projectID instanceID json_Unmarshal) with (handle RouteStop).
  rewrite (run_authenticated RouteStop r w w1 svc Hm Ha), Hs.
  apply String.eqb_neq in Hst.
  cbv [after_status]. rewrite Hst. cbv [negb]. rewrite run_writeErrorResponse.
  eexists; split; [reflexivity|].
  split; [reflexivity|]. split; [reflexivity|]. split; [reflexivity|].
  pose proof (checkStatusInstances_no_patch w1) as Hn. rewrite Hs in Hn.
  unfold trace in *; simpl in *.
  rewrite existsb_app, Hn. reflexivity.
Qed.

(** C2. A POST to [/start] or [/stop] that is authenticated and whose status
    read succeeds, with a body that is not valid JSON or does not map
    [ActivationPolicy] to the string [ALWAYS] or [NEVER], is answered 400 and
    no patch is made. Once the body validation is reached (always on
    [/start], in state [RUNNABLE] on [/stop]) the rejection is the
    validation's own. *)
Theorem invalid_policy_is_400_without_patch
  (rt : route) (r : Request) (w w1 w2 : World) (svc : sqladmin.Service)
  (st : SQLInstancesData) (tr : list event) (body : string) :
  rt <> RouteCheck ->
  Method r = "POST" ->
  answer _ credentials w = (Ok svc, w1) ->
  run answer (checkStatusInstances projectID instanceID) w1 = (Done (Ok st), tr, w2) ->
  Body r = Ok body ->
  policy_of_body json_Unmarshal body = None ->
  exists (resp : response) (msg : string),
    written (run answer (handle rt r) w) = Some resp
    /\ status resp = 400
    /\ member resp "status_code" = Some (FInt 400)
    /\ message_of resp = Some msg
    /\ (rt = RouteStart \/ State st = "RUNNABLE" -> In msg body_rejections)
    /\ existsb is_patch (trace (run answer (handle rt r) w)) = false.
Proof.
  intros Hrt Hm Ha Hs Hb Hp.
  assert (Hmr : Method r = method_of rt) by (destruct rt; [exact Hm | exact Hm | contradiction]).
  rewrite (run_authenticated rt r w w1 svc Hmr Ha), Hs.
  pose proof (checkStatusInstances_no_patch w1) as Hn. rewrite Hs in Hn.
  unfold trace in Hn; simpl in Hn.
  assert (Htail : forall failed succeeded,
    exists (resp : response) (msg : string),
      written (let '(o, tr2, w3) := run answer (the_tail svc r failed succeeded) w2 in
               (o, (Called credentials (Ok svc) :: tr ++ tr2)%list, w3)) = Some resp
      /\ status resp = 400
      /\ member resp "status_code" = Some (FInt 400)
      /\ message_of resp = Some msg
      /\ In msg body_rejections
      /\ existsb is_patch
           (trace (let '(o, tr2, w3) := run answer (the_tail svc r failed succeeded) w2 in
                   (o, (Called credentials (Ok svc) :: tr ++ tr2)%list, w3))) = false).
  { intros failed succeeded.
    destruct (run_patch_tail_rejected svc r failed succeeded w2 body Hb Hp)
      as (msg & cause & Hmsg & ->).
    rewrite run_writeErrorResponse.
    eexists _, msg; split; [reflexivity|].
    split; [reflexivity|]. split; [reflexivity|]. split; [reflexivity|].
    split; [destruct Hmsg as [-> | ->]; simpl; tauto|].
    unfold trace; simpl. rewrite existsb_app, Hn. reflexivity. }
  destruct rt; [| |contradiction]; cbv [after_status].
  - destruct (String.eqb_spec (State st) "RUNNABLE") as [Hst | Hst]; cbv [negb].
    + destruct (Htail "Failed to stop instance."
                  "Instance successfully stopped. Check console for details.")
        as (resp & msg & H1 & H2 & H3 & H4 & H5 & H6).
      exists resp, msg. tauto.
    + rewrite run_writeErrorResponse.
      eexists _, _; split; [reflexivity|].
      split; [reflexivity|]. split; [reflexivity|]. split; [reflexivity|].
      split; [intros [? | ?]; [discriminate | contradiction]|].
      unfold trace; simpl. rewrite existsb_app, Hn. reflexivity.
  - destruct (Htail "Failed to start instance."
                "Instance successfully started. Check console for details.")
      as (resp & msg & H1 & H2 & H3 & H4 & H5 & H6).
    exists resp, msg. tauto.
Qed.

Lemma run_checkStatusInstances_ok (w1 w2 w3 : World) (svc2 : sqladmin.Service)
  (instance : sqladmin.DatabaseInstance) (settings : sqladmin.Settings) :
  answer _ credentials w1 = (Ok svc2, w2) ->
  answer _ (InstancesGet svc2 projectID instanceID) w2 = (Ok instance, w3) ->
  sqladmin.Settings_ instance = Some settings ->
  run answer (checkStatusInstances projectID instanceID) w1
  = (Done (Ok (snapshot instance settings)),
     [Called credentials (Ok svc2);
      Called (InstancesGet svc2 projectID instanceID) (Ok instance)], w3).
Proof.
  intros H1 H2 H3. rewrite run_checkStatusInstances, H1, H2, H3. reflexivity.
Qed.



(** C8. On [/start], once the authentication and the status read have
    succeeded, the handler goes on to the body whatever the state read: its
    answer is one of the body validation, or the outcome of the patch; with
    a valid body the patch is issued, after the status read and with the
    policy of the body; and no state makes it answer with the state
    rejection of [/stop]. *)
Theorem start_ignores_the_state_read
  (r : Request) (w w1 w2 : World) (svc : sqladmin.Service)
  (st : SQLInstancesData) (tr : list event) :
  Method r = "POST" ->
  answer _ credentials w = (Ok svc, w1) ->
  run answer (checkStatusInstances projectID instanceID) w1 = (Done (Ok st), tr, w2) ->
  (exists (resp : response) (msg : string),
      written (run answer (startInstanceHandler projectID instanceID json_Unmarshal r) w)
      = Some resp
      /\ message_of resp = Some msg
      /\ In msg (body_rejections
                 ++ [ "Failed to start instance.";
                      "Instance successfully started. Check console for details." ])%list)
  /\ (forall (resp : response) (state : string),
        written (run answer (startInstanceHandler projectID instanceID json_Unmarshal r) w)
        = Some resp ->
        message_of resp <> Some ("Instance currently in " ++ state ++ " state."))
  /\ (forall body ap : string,
        Body r = Ok body ->
        policy_of_body json_Unmarshal body = Some ap ->
        exists (x : result sqladmin.Operation) (now : Time),
          trace (run answer (startInstanceHandler projectID instanceID json_Unmarshal r) w)
          = (Called credentials (Ok svc) :: tr
             ++ [ Called (InstancesPatch svc projectID instanceID (patch_body ap)) x;
                  Called Now now ])%list).
Proof.
  intros Hm Ha Hs.
  change (startInstanceHandler projectID instanceID json_Unmarshal) with (handle RouteStart).
  rewrite (run_authenticated RouteStart r w w1 svc Hm Ha), Hs.
  cbv [after_status].
  set (failed := "Failed to start instance.").
  set (succeeded := "Instance successfully started. Check console for details.").
  assert (Hcases :
    (exists (m : string) (cause : any),
        In m body_rejections
        /\ run answer (the_tail svc r failed succeeded) w2
           = run answer (writeErrorResponse StatusBadRequest m cause) w2)
    \/ (exists body ap : string,
          Body r = Ok body /\ policy_of_body json_Unmarshal body = Some ap)).
  { destruct (Body r) as [body | err] eqn:Hb.
    - destruct (policy_of_body json_Unmarshal body) as [ap |] eqn:Hp.
      + right. eexists _, _; split; [reflexivity | exact Hp].
      + left. destruct (run_patch_tail_rejected svc r failed succeeded w2 body Hb Hp)
          as (m & cause & Hmsg & ->).
        exists m, cause. split; [|reflexivity].
        destruct Hmsg as [-> | ->]; simpl; tauto.
    - left. rewrite (run_patch_tail_unreadable svc r failed succeeded w2 err Hb).
      eexists _, _; split; [|reflexivity]. simpl; tauto. }
  assert (Hmsg : exists (resp : response) (msg : string),
      written (let '(o, tr2, w3) := run answer (the_tail svc r failed succeeded) w2 in
               (o, (Called credentials (Ok svc) :: tr ++ tr2)%list, w3)) = Some resp
      /\ message_of resp = Some msg
      /\ In msg (body_rejections ++ [failed; succeeded])%list).
  { destruct Hcases as [(m & cause & Hin & ->) | (body & ap & Hb & Hp)].
    - rewrite run_writeErrorResponse.
      eexists _, m; split; [reflexivity|]. split; [reflexivity|].
      apply in_or_app; left; exact Hin.
    - rewrite (run_patch_tail_accepted svc r failed succeeded w2 body ap Hb Hp).
      destruct (answer _ (InstancesPatch svc projectID instanceID (patch_body ap)) w2)
        as [[operation | err] w3].
      + eexists _, succeeded; split; [reflexivity|]. split; [reflexivity|].
        simpl; tauto.
      + eexists _, failed; split; [reflexivity|]. split; [reflexivity|].
        simpl; tauto. }
  split; [exact Hmsg|]. split.
  - destruct Hmsg as (resp & msg & Hw & Hmsg & Hin).
    intros resp' state Hw' Hmsg'. rewrite Hw in Hw'. injection Hw' as <-.
    rewrite Hmsg in Hmsg'. injection Hmsg' as ->.
    simpl in Hin. subst failed succeeded.
    destruct Hin as [H | [H | [H | [H | [H | []]]]]]; discriminate.
  - intros body ap Hb Hp.
    rewrite (run_patch_tail_accepted svc r failed succeeded w2 body ap Hb Hp).
    destruct (answer _ (InstancesPatch svc projectID instanceID (patch_body ap)) w2)
      as [x w3].
    eexists _, _; reflexivity.
Qed.

(** C6. When every call succeeds, [/check] answers 200 with the five fields
    projected from the provider's instance (name, version, region and state
    of the instance, tier of its settings) and its data object has these
    five members and no other; [/start] and [/stop] (the latter on a
    [RUNNABLE] instance), given a body with a valid policy, answer 200 with
    the operation the provider returned for the patch as data. *)
Theorem successful_requests_answer_200
  (rt : route) (r : Request) (w w1 w2 w3 : World) (svc svc2 : sqladmin.Service)
  (instance : sqladmin.DatabaseInstance) (settings : sqladmin.Settings) :
  Method r = method_of rt ->
  answer _ credentials w = (Ok svc, w1) ->
  answer _ credentials w1 = (Ok svc2, w2) ->
  answer _ (InstancesGet svc2 projectID instanceID) w2 = (Ok instance, w3) ->
  sqladmin.Settings_ instance = Some settings ->
  match rt with
  | RouteCheck =>
      exists (resp : response) (d : SQLInstancesData),
        written (run answer (handle rt r) w) = Some resp
        /\ status resp = 200
        /\ member resp "status_code" = Some (FInt 200)
        /\ member resp "data" = Some (FInstance d)
        /\ d = {| Name := sqladmin.Name instance;
                  DatabaseVersion := sqladmin.DatabaseVersion instance;
                  Region := sqladmin.Region instance;
                  State := sqladmin.State instance;
                  Tier := sqladmin.Tier settings |}
        /\ map fst (json_of_SQLInstancesData d)
           = ["name"; "database_version"; "region"; "state"; "tier"]
        /\ existsb is_patch (trace (run answer (handle rt r) w)) = false
  | _ =>
      forall (body ap : string) (operation : sqladmin.Operation) (w4 : World),
        (rt = RouteStop -> sqladmin.State instance = "RUNNABLE") ->
        Body r = Ok body ->
        policy_of_body json_Unmarshal body = Some ap ->
        answer _ (InstancesPatch svc projectID instanceID (patch_body ap)) w3
        = (Ok operation, w4) ->
        exists resp : response,
          written (run answer (handle rt r) w) = Some resp
          /\ status resp = 200
          /\ member resp "status_code" = Some (FInt 200)
          /\ member resp "data" = Some (FOperation operation)
  end.
Proof.
  intros Hm Ha Ha2 Hg Hset.
  rewrite (run_authenticated rt r w w1 svc Hm Ha).
  rewrite (run_checkStatusInstances_ok w1 w2 w3 svc2 instance settings Ha2 Hg Hset).
  destruct rt; cbv [after_status].
  - intros body ap operation w4 Hst Hb Hp Hpatch.
    change (State (snapshot instance settings)) with (sqladmin.State instance).
    rewrite (Hst eq_refl). cbv [negb String.eqb Ascii.eqb Bool.eqb].
    rewrite (run_patch_tail_accepted svc r _ _ w3 body ap Hb Hp), Hpatch.
    eexists; repeat split.
  - intros body ap operation w4 Hst Hb Hp Hpatch.
    rewrite (run_patch_tail_accepted svc r _ _ w3 body ap Hb Hp), Hpatch.
    eexists; repeat split.
  - rewrite run_writeSuccessResponse.
    eexists _, _; repeat split.
Qed.

End HandlerFacts.

(** ** Timestamps: what [Format(time.RFC3339)] prints is an RFC 3339 timestamp *)

Lemma upto_complete (n : nat) (x : Z) : 0 <= x < Z.of_nat n -> In x (upto n).
Proof.
  induction n as [| k IH]; intros Hx; [lia|].
  simpl. destruct (Z.eq_dec x (Z.of_nat k)) as [-> | Hne]; [left; reflexivity|].
  right. apply IH. lia.
Qed.

Lemma forallb_upto (P : Z -> bool) (n : Z) :
  forallb P (upto (Z.to_nat n)) = true -> forall x : Z, 0 <= x < n -> P x = true.
Proof.
  intros H x Hx. rewrite forallb_forall in H. apply H, upto_complete. lia.
Qed.

Lemma appendInt_2 (x : Z) :
  0 <= x < 100 ->
  exists a b : ascii, appendInt x 2 = String a (String b "") /\ num2 a b = Some x.
Proof.
  intros Hx.
  assert (H : two_digits x = true).
  { apply (forallb_upto two_digits 100); [vm_compute; reflexivity | lia]. }
  unfold two_digits in H.
  destruct (appendInt x 2) as [| a [| b [| c s]]]; try discriminate.
  destruct (num2 a b) as [y |] eqn:Hn; [|discriminate].
  apply Z.eqb_eq in H. subst y. exists a, b. split; [reflexivity | exact Hn].
Qed.

Lemma appendInt_4 (x : Z) :
  0 <= x < 10000 ->
  exists a b c d : ascii,
    appendInt x 4 = String a (String b (String c (String d ""))) /\ num4 a b c d = Some x.
Proof.
  intros Hx.
  assert (H : four_digits x = true).
  { apply (forallb_upto four_digits 10000); [vm_compute; reflexivity | lia]. }
  unfold four_digits in H.
  destruct (appendInt x 4) as [| a [| b [| c [| d [| e s]]]]]; try discriminate.
  destruct (num4 a b c d) as [y |] eqn:Hn; [|discriminate].
  apply Z.eqb_eq in H. subst y. exists a, b, c, d. split; [reflexivity | exact Hn].
Qed.


Arguments num2 : simpl never.
Arguments num4 : simpl never.
Arguments appendInt : simpl never.

Ltac quot_lia := Z.to_euclidean_division_equations; lia.

(** The zone printed by [format_zone] reads back as the offset, cut to the
    minute. *)
Lemma parse_offset_format_zone (off : Z) :
  -86400 < off < 86400 ->
  exists l : list ascii,
    list_ascii_of_string (format_zone off) = l
    /\ skip_secfrac l = Some l
    /\ parse_offset l = Some (60 * Z.quot off 60).
Proof.
  intros Hoff. unfold format_zone.
  destruct (Z.eqb_spec off 0) as [-> | Hnz].
  { eexists; split; [reflexivity|]. split; reflexivity. }
  destruct (Z.ltb_spec (Z.quot off 60) 0) as [Hneg | Hpos].
  - destruct (appendInt_2 (Z.quot (- Z.quot off 60) 60)) as (h1 & h2 & -> & Hh);
      [quot_lia|].
    destruct (appendInt_2 (Z.rem (- Z.quot off 60) 60)) as (m1 & m2 & -> & Hm);
      [quot_lia|].
    eexists; split; [reflexivity|]. split; [reflexivity|].
    simpl. rewrite Hh. simpl. rewrite Hm. simpl.
    rewrite !(proj2 (Z.leb_le _ _)) by quot_lia. simpl.
    f_equal. quot_lia.
  - destruct (appendInt_2 (Z.quot (Z.quot off 60) 60)) as (h1 & h2 & -> & Hh);
      [quot_lia|].
    destruct (appendInt_2 (Z.rem (Z.quot off 60) 60)) as (m1 & m2 & -> & Hm);
      [quot_lia|].
    eexists; split; [reflexivity|]. split; [reflexivity|].
    simpl. rewrite Hh. simpl. rewrite Hm. simpl.
    rewrite !(proj2 (Z.leb_le _ _)) by quot_lia. simpl.
    f_equal. quot_lia.
Qed.

Lemma days_in_bounds (y m : Z) : 28 <= days_in y m <= 31.
Proof.
  unfold days_in.
  destruct (is_leap y); destruct m as [| p | p]; try lia;
    do 4 (try (destruct p as [p | p |]; try lia)).
Qed.

(** What [Format] prints, [parse_RFC3339] reads back. *)
Lemma parse_Format_RFC3339 (t : Time) :
  wf_Time t -> parse_RFC3339 (Format_RFC3339 t) = Some (trunc_zone t).
Proof.
  intros (Hy & Hmo & Hd & Hh & Hmi & Hs & Hoff).
  pose proof (days_in_bounds (year t) (month t)) as Hdays.
  unfold Format_RFC3339, parse_RFC3339.
  destruct (appendInt_4 (year t)) as (y1 & y2 & y3 & y4 & -> & Ey); [lia|].
  destruct (appendInt_2 (month t)) as (mo1 & mo2 & -> & Emo); [lia|].
  destruct (appendInt_2 (day t)) as (d1 & d2 & -> & Ed); [lia|].
  destruct (appendInt_2 (hour t)) as (h1 & h2 & -> & Eh); [lia|].
  destruct (appendInt_2 (minute t)) as (mi1 & mi2 & -> & Emi); [lia|].
  destruct (appendInt_2 (second t)) as (s1 & s2 & -> & Es); [lia|].
  destruct (parse_offset_format_zone (offset t) Hoff) as (zone & Ez & Eskip & Eoff).
  simpl.
  change ("" ++ format_zone (offset t)) with (format_zone (offset t)).
  rewrite Ez, Ey. simpl. rewrite Emo. simpl. rewrite Ed. simpl.
  rewrite Eh. simpl. rewrite Emi. simpl. rewrite Es. simpl.
  rewrite Eskip. simpl. rewrite Eoff. simpl.
  rewrite !(proj2 (Z.leb_le _ _)) by lia. reflexivity.
Qed.

(** ** Every response is an envelope *)

Lemma emits_bind {A : Type} (p : prog A) (f : A -> prog response) :
  (forall a : A, emits (f a)) -> emits (bind p f).
Proof.
  intros Hf. induction p as [a | msg | X c k IH]; simpl.
  - apply Hf.
  - apply emits_panic.
  - apply emits_do. exact IH.
Qed.

Section EnvelopeFacts.
Context {World : Type}.
Variable answer : forall X : Type, call X -> World -> X * World.
Variables projectID instanceID : string.
Variable json_Unmarshal : string -> result (gmap string json).

Abbreviation handle' := (handler projectID instanceID json_Unmarshal).

Lemma handler_emits (rt : route) (r : Request) : emits (handle' rt r).
Proof.
  assert (Htail : forall svc failed succeeded,
             emits (patch_tail projectID instanceID json_Unmarshal svc r failed succeeded)).
  { intros svc failed succeeded. unfold patch_tail.
    destruct (Body r) as [body | err]; [|apply emits_error; simpl; tauto].
    destruct (json_Unmarshal body) as [payload | err]; [|apply emits_error; simpl; tauto].
    destruct (assert_string (payload !! "ActivationPolicy")) as [ap ok].
    destruct (negb ok || _); [apply emits_error; simpl; tauto|].
    apply emits_bind. intros [operation | err];
      [apply emits_success | apply emits_error]; simpl; tauto. }
  rewrite handler_outline.
  destruct (negb _); [apply emits_error; simpl; tauto|].
  apply emits_bind. intros [svc | err]; [|apply emits_error; simpl; tauto].
  apply emits_bind. intros [st | err]; cbv [after_status];
    [|apply emits_error; simpl; tauto].
  destruct rt.
  - destruct (negb _); [apply emits_error; simpl; tauto | apply Htail].
  - apply Htail.
  - apply emits_success; simpl; tauto.
Qed.

Lemma emits_stamped (p : prog response) :
  emits p ->
  forall (w : World) (resp : response),
    written (run answer p w) = Some resp ->
    exists w' : World, stamped (fst (answer _ Now w')) resp.
Proof.
  induction 1 as [code message err Hc | code message data Hc | msg | X c k Hk IH];
    intros w resp Hw.
  - rewrite run_writeErrorResponse in Hw. injection Hw as <-.
    exists w. repeat split. exact Hc.
  - rewrite run_writeSuccessResponse in Hw. injection Hw as <-.
    exists w. repeat split. exact Hc.
  - discriminate.
  - simpl in Hw. destruct (answer X c w) as [x w1].
    destruct (run answer (k x) w1) as [[o tr] w2] eqn:Hr.
    apply (IH x w1). rewrite Hr. destruct o; exact Hw.
Qed.

(** C7. Every response a handler writes, success or error, has a
    [timestamp] that reads as an RFC 3339 timestamp (of the clock reading
    it was printed from, zone cut to the minute), a [status_code] equal to
    the status of the response, and a [status_text] that is the reason
    phrase of that code; the codes and phrases are 200 OK, 400 Bad Request,
    401 Unauthorized, 405 Method Not Allowed, 500 Internal Server Error. *)
Theorem every_response_is_stamped_and_phrased
  (rt : route) (r : Request) (w : World) (resp : response) :
  (forall w' : World, wf_Time (fst (answer _ Now w'))) ->
  written (run answer (handle' rt r) w) = Some resp ->
  exists (ts : string) (t : Time) (code : Z),
    member resp "timestamp" = Some (FString ts)
    /\ parse_RFC3339 ts = Some t
    /\ status resp = code
    /\ member resp "status_code" = Some (FInt code)
    /\ member resp "status_text" = Some (FString (StatusText code))
    /\ In (code, StatusText code)
         [ (200, "OK"); (400, "Bad Request"); (401, "Unauthorized");
           (405, "Method Not Allowed"); (500, "Internal Server Error") ].
Proof.
  intros Hclock Hw.
  destruct (emits_stamped _ (handler_emits rt r) w resp Hw)
    as (w' & Hcode & Hsc & Hst & Hts).
  exists (Format_RFC3339 (fst (answer _ Now w'))), (trunc_zone (fst (answer _ Now w'))),
    (status resp).
  split; [exact Hts|]. split; [apply parse_Format_RFC3339, Hclock|].
  split; [reflexivity|]. split; [exact Hsc|]. split; [exact Hst|].
  simpl in Hcode.
  destruct Hcode as [<- | [<- | [<- | [<- | [<- | []]]]]]; simpl; tauto.
Qed.

End EnvelopeFacts.

(** ** The theorems at work on the scripted provider *)

Lemma wf_noon : wf_Time noon.
Proof. unfold wf_Time; simpl. lia. Qed.

Lemma wrong_method_is_405_without_provider_call_witness :
  exists resp : response,
    written (demo (healthy "RUNNABLE") RouteStart get) = Some resp
    /\ status resp = 405
    /\ member resp "status_code" = Some (FInt 405)
    /\ message_of resp = Some "Method not allowed."
    /\ existsb is_provider_call (trace (demo (healthy "RUNNABLE") RouteStart get)) = false.
Proof.
  apply (wrong_method_is_405_without_provider_call (scripted (healthy "RUNNABLE"))
           "demo" "db-main" sample_Unmarshal RouteStart get 0%nat).
  discriminate.
Defined.

Lemma failed_authentication_is_401_witness :
  exists (resp : response) (now : Time),
    written (demo no_credentials RouteCheck get) = Some resp
    /\ status resp = 401
    /\ member resp "status_code" = Some (FInt 401)
    /\ error_pair resp
       = Some ("internal_error", "open service_account.json: no such file or directory")
    /\ trace (demo no_credentials RouteCheck get)
       = [Called (NewService "service_account.json")
            (Fail (ErrorString "open service_account.json: no such file or directory"));
          Called Now now]
    /\ existsb is_status_read (trace (demo no_credentials RouteCheck get)) = false
    /\ existsb is_patch (trace (demo no_credentials RouteCheck get)) = false.
Proof.
  apply (failed_authentication_is_401 (scripted no_credentials)
           "demo" "db-main" sample_Unmarshal RouteCheck get 0%nat 1%nat
           (ErrorString "open service_account.json: no such file or directory"));
    reflexivity.
Defined.

Lemma failed_status_fetch_is_internal_error_witness :
  exists resp : response,
    written (demo lookup_fails RouteStop (post "{}")) = Some resp
    /\ status resp = 500
    /\ message_of resp = Some "Instances not found."
    /\ error_pair resp
       = Some ("internal_error",
               Error (Errorf_w "failed to get instance details, instances not found.: "
                        (GoogleapiError not_found)))
    /\ (exists (prefix : string) (cause : error),
          Errorf_w "failed to get instance details, instances not found.: "
            (GoogleapiError not_found)
          = WrapError (prefix ++ Error cause) cause
          /\ Error (Errorf_w "failed to get instance details, instances not found.: "
                      (GoogleapiError not_found))
             = prefix ++ Error cause)
    /\ existsb is_patch (trace (demo lookup_fails RouteStop (post "{}"))) = false.
Proof.
  eapply (failed_status_fetch_is_internal_error (scripted lookup_fails)
            "demo" "db-main" sample_Unmarshal RouteStop (post "{}") 0%nat 1%nat 2%nat 1%nat);
    reflexivity.
Defined.

Lemma stop_rejects_every_state_but_runnable_witness :
  exists resp : response,
    written (demo (healthy "STOPPED") RouteStop (post "{}")) = Some resp
    /\ status resp = 400
    /\ member resp "status_code" = Some (FInt 400)
    /\ message_of resp = Some "Instance currently in STOPPED state."
    /\ existsb is_patch (trace (demo (healthy "STOPPED") RouteStop (post "{}"))) = false.
Proof.
  eapply (stop_rejects_every_state_but_runnable (scripted (healthy "STOPPED"))
            "demo" "db-main" sample_Unmarshal (post "{}") 0%nat 1%nat 2%nat 1%nat
            (snapshot (instance_in "STOPPED")
               {| sqladmin.ActivationPolicy := "ALWAYS"; sqladmin.Tier := "db-f1-micro" |}));
    [reflexivity | reflexivity | reflexivity | discriminate].
Defined.

Lemma invalid_policy_is_400_without_patch_witness :
  exists (resp : response) (msg : string),
    written (demo (healthy "RUNNABLE") RouteStop (post lowercase_body)) = Some resp
    /\ status resp = 400
    /\ member resp "status_code" = Some (FInt 400)
    /\ message_of resp = Some msg
    /\ (RouteStop = RouteStart \/ State running = "RUNNABLE" -> In msg body_rejections)
    /\ existsb is_patch (trace (demo (healthy "RUNNABLE") RouteStop (post lowercase_body)))
       = false.
Proof.
  eapply (invalid_policy_is_400_without_patch (scripted (healthy "RUNNABLE"))
            "demo" "db-main" sample_Unmarshal RouteStop (post lowercase_body)
            0%nat 1%nat 2%nat 1%nat running);
    [discriminate | reflexivity | reflexivity | reflexivity | reflexivity | reflexivity].
Defined.



Lemma start_ignores_the_state_read_witness :
  (exists (resp : response) (msg : string),
      written (demo (healthy "STOPPED") RouteStart (post always_body)) = Some resp
      /\ message_of resp = Some msg
      /\ In msg (body_rejections
                 ++ [ "Failed to start instance.";
                      "Instance successfully started. Check console for details." ])%list)
  /\ (forall (resp : response) (state : string),
        written (demo (healthy "STOPPED") RouteStart (post always_body)) = Some resp ->
        message_of resp <> Some ("Instance currently in " ++ state ++ " state."))
  /\ (forall body ap : string,
        Body (post always_body) = Ok body ->
        policy_of_body sample_Unmarshal body = Some ap ->
        exists (x : result sqladmin.Operation) (now : Time),
          trace (demo (healthy "STOPPED") RouteStart (post always_body))
          = (Called (NewService "service_account.json") (Ok 1%nat)
             :: [ Called (NewService "service_account.json") (Ok 2%nat);
                  Called (InstancesGet 2%nat "demo" "db-main") (Ok (instance_in "STOPPED")) ]
             ++ [ Called (InstancesPatch 1%nat "demo" "db-main" (patch_body ap)) x;
                  Called Now now ])%list).
Proof.
  apply (start_ignores_the_state_read (scripted (healthy "STOPPED"))
           "demo" "db-main" sample_Unmarshal (post always_body) 0%nat 1%nat 2%nat 1%nat
           (snapshot (instance_in "STOPPED")
              {| sqladmin.ActivationPolicy := "ALWAYS"; sqladmin.Tier := "db-f1-micro" |}));
    reflexivity.
Defined.

Lemma successful_requests_answer_200_witness :
  (exists (resp : response) (d : SQLInstancesData),
      written (demo (healthy "RUNNABLE") RouteCheck get) = Some resp
      /\ status resp = 200
      /\ member resp "status_code" = Some (FInt 200)
      /\ member resp "data" = Some (FInstance d)
      /\ d = {| Name := "db-main"; DatabaseVersion := "POSTGRES_15";
                Region := "asia-southeast2"; State := "RUNNABLE";
                Tier := "db-f1-micro" |}
      /\ map fst (json_of_SQLInstancesData d)
         = ["name"; "database_version"; "region"; "state"; "tier"]
      /\ existsb is_patch (trace (demo (healthy "RUNNABLE") RouteCheck get)) = false)
  /\ (exists resp : response,
        written (demo (healthy "RUNNABLE") RouteStop (post always_body)) = Some resp
        /\ status resp = 200
        /\ member resp "status_code" = Some (FInt 200)
        /\ member resp "data" = Some (FOperation patch_operation)).
Proof.
  split.
  - apply (successful_requests_answer_200 (scripted (healthy "RUNNABLE"))
             "demo" "db-main" sample_Unmarshal RouteCheck get 0%nat 1%nat 2%nat 2%nat
             1%nat 2%nat (instance_in "RUNNABLE")
             {| sqladmin.ActivationPolicy := "ALWAYS"; sqladmin.Tier := "db-f1-micro" |});
      reflexivity.
  - apply (successful_requests_answer_200 (scripted (healthy "RUNNABLE"))
             "demo" "db-main" sample_Unmarshal RouteStop (post always_body)
             0%nat 1%nat 2%nat 2%nat 1%nat 2%nat (instance_in "RUNNABLE")
             {| sqladmin.ActivationPolicy := "ALWAYS"; sqladmin.Tier := "db-f1-micro" |}
             eq_refl eq_refl eq_refl eq_refl eq_refl
             always_body "ALWAYS" patch_operation 2%nat);
      reflexivity.
Defined.

Lemma every_response_is_stamped_and_phrased_witness :
  written (demo (healthy "RUNNABLE") RouteStart (post "{}")) = Some policy_rejection
  /\ exists (ts : string) (t : Time) (code : Z),
      member policy_rejection "timestamp" = Some (FString ts)
      /\ parse_RFC3339 ts = Some t
      /\ status policy_rejection = code
      /\ member policy_rejection "status_code" = Some (FInt code)
      /\ member policy_rejection "status_text" = Some (FString (StatusText code))
      /\ In (code, StatusText code)
           [ (200, "OK"); (400, "Bad Request"); (401, "Unauthorized");
             (405, "Method Not Allowed"); (500, "Internal Server Error") ].
Proof.
  split; [reflexivity|].
  apply (every_response_is_stamped_and_phrased (scripted (healthy "RUNNABLE"))
           "demo" "db-main" sample_Unmarshal RouteStart (post "{}") 0%nat).
  - intros w'. exact wf_noon.
  - reflexivity.
Defined.

(** The timestamp of the demo responses, and its reading. *)
Example timestamp_at_noon :
  Format_RFC3339 noon = "2024-02-29T12:00:00+07:00"
  /\ parse_RFC3339 "2024-02-29T12:00:00+07:00" = Some noon.
Proof. split; reflexivity. Qed.

(** * Further properties of the handlers *)

Section MoreHandlerFacts.
Context {World : Type}.
Variable answer : forall X : Type, call X -> World -> X * World.
Variables projectID instanceID : string.
Variable json_Unmarshal : string -> result (gmap string json).

Abbreviation cred := (NewService "service_account.json").
Abbreviation handle2 := (handler projectID instanceID json_Unmarshal).
Abbreviation tail2 := (patch_tail projectID instanceID json_Unmarshal).
Abbreviation next2 := (after_status projectID instanceID json_Unmarshal).
Abbreviation reader := (checkStatusInstances projectID instanceID).

Lemma run_patch_tail_undecodable svc r failed succeeded (w : World)
  (body : string) (err : error) :
  Body r = Ok body ->
  json_Unmarshal body = Fail err ->
  run answer (tail2 svc r failed succeeded) w
  = run answer (writeErrorResponse StatusBadRequest "Invalid JSON format."
                  (AnyError err)) w.
Proof. intros Hb Hj. unfold patch_tail. rewrite Hb, Hj. reflexivity. Qed.

Lemma run_patch_tail_bad_policy svc r failed succeeded (w : World)
  (body : string) (payload : gmap string json) :
  Body r = Ok body ->
  json_Unmarshal body = Ok payload ->
  policy_of_body json_Unmarshal body = None ->
  run answer (tail2 svc r failed succeeded) w
  = run answer (writeErrorResponse StatusBadRequest
                  "Invalid value for ActivationPolicy. Must be 'ALWAYS' or 'NEVER'."
                  (AnyString "")) w.
Proof.
  intros Hb Hj Hp. unfold patch_tail, policy_of_body in *. rewrite Hb. rewrite Hj in *.
  pose proof (policy_test payload) as Ht.
  destruct (assert_string (payload !! "ActivationPolicy")) as [ap ok].
  rewrite Ht.
  destruct (payload !! "ActivationPolicy") as [[ | b | n | s | l | m] | ];
    try reflexivity.
  destruct (bool_decide (s = "ALWAYS" \/ s = "NEVER")); [discriminate | reflexivity].
Qed.

(** Past the status read, a mutating handler runs the common tail. *)
Lemma run_reaches_tail (rt : route) (r : Request) (w w1 w2 : World)
  (svc : sqladmin.Service) (st : SQLInstancesData) (tr : list event) :
  rt <> RouteCheck ->
  Method r = "POST" ->
  answer _ cred w = (Ok svc, w1) ->
  run answer reader w1 = (Done (Ok st), tr, w2) ->
  (rt = RouteStop -> State st = "RUNNABLE") ->
  run answer (handle2 rt r) w
  = let '(o, tr2, w3) :=
      run answer (tail2 svc r (failed_message rt) (succeeded_message rt)) w2 in
    (o, (Called cred (Ok svc) :: tr ++ tr2)%list, w3).
Proof.
  intros Hrt Hm Ha Hs Hst.
  assert (Hmr : Method r = method_of rt)
    by (destruct rt; [exact Hm | exact Hm | contradiction]).
  rewrite (run_authenticated answer projectID instanceID json_Unmarshal rt r w w1 svc Hmr Ha).
  rewrite Hs. destruct rt; [| |contradiction]; cbv [after_status].
  - rewrite (Hst eq_refl). reflexivity.
  - reflexivity.
Qed.

Lemma reader_patches_nothing (w1 w2 : World) (o : outcome (result SQLInstancesData))
  (tr : list event) :
  run answer reader w1 = (o, tr, w2) -> patches tr = [].
Proof.
  rewrite run_checkStatusInstances.
  destruct (answer _ cred w1) as [[svc2 | e1] w1'].
  - destruct (answer _ (InstancesGet svc2 projectID instanceID) w1')
      as [[instance | e2] w2'].
    + destruct (sqladmin.Settings_ instance); intros [= _ <- _]; reflexivity.
    + intros [= _ <- _]; reflexivity.
  - intros [= _ <- _]; reflexivity.
Qed.

Lemma patches_app (l1 l2 : list event) : patches (l1 ++ l2) = (patches l1 ++ patches l2)%list.
Proof. unfold patches. apply omap_app. Qed.

(** X2. Once the body is examined (authentication and status read done, the
    instance [RUNNABLE] on [/stop]), the three ways a body can fail are told
    apart: a body that cannot be read, a body that does not decode, and a
    decoded body without a valid policy each get their own message, with the
    reading or decoding error as the cause handed to the formatter in the
    first two cases and the empty string in the third. None of them
    patches. *)
Theorem body_failures_are_told_apart
  (rt : route) (r : Request) (w w1 w2 : World) (svc : sqladmin.Service)
  (st : SQLInstancesData) (tr : list event) :
  rt <> RouteCheck ->
  Method r = "POST" ->
  answer _ cred w = (Ok svc, w1) ->
  run answer reader w1 = (Done (Ok st), tr, w2) ->
  (rt = RouteStop -> State st = "RUNNABLE") ->
  (forall err : error,
      Body r = Fail err ->
      exists resp : response,
        written (run answer (handle2 rt r) w) = Some resp
        /\ status resp = 400
        /\ message_of resp = Some "Failed to read request body."
        /\ error_pair resp = Some (classify (AnyError err))
        /\ patches (trace (run answer (handle2 rt r) w)) = [])
  /\ (forall (body : string) (err : error),
        Body r = Ok body ->
        json_Unmarshal body = Fail err ->
        exists resp : response,
          written (run answer (handle2 rt r) w) = Some resp
          /\ status resp = 400
          /\ message_of resp = Some "Invalid JSON format."
          /\ error_pair resp = Some (classify (AnyError err))
          /\ patches (trace (run answer (handle2 rt r) w)) = [])
  /\ (forall (body : string) (payload : gmap string json),
        Body r = Ok body ->
        json_Unmarshal body = Ok payload ->
        policy_of_body json_Unmarshal body = None ->
        exists resp : response,
          written (run answer (handle2 rt r) w) = Some resp
          /\ status resp = 400
          /\ message_of resp
             = Some "Invalid value for ActivationPolicy. Must be 'ALWAYS' or 'NEVER'."
          /\ error_pair resp = Some ("internal_error", "")
          /\ patches (trace (run answer (handle2 rt r) w)) = []).
Proof.
  intros Hrt Hm Ha Hs Hst.
  rewrite (run_reaches_tail rt r w w1 w2 svc st tr Hrt Hm Ha Hs Hst).
  pose proof (reader_patches_nothing w1 w2 _ tr Hs) as Hn.
  assert (Hrej : forall (m : string) (cause : any),
    run answer (tail2 svc r (failed_message rt) (succeeded_message rt)) w2
    = run answer (writeErrorResponse StatusBadRequest m cause) w2 ->
    exists resp : response,
      written (let '(o, tr2, w3) :=
                 run answer (tail2 svc r (failed_message rt) (succeeded_message rt)) w2 in
               (o, (Called cred (Ok svc) :: tr ++ tr2)%list, w3)) = Some resp
      /\ status resp = 400
      /\ message_of resp = Some m
      /\ error_pair resp = Some (classify cause)
      /\ patches (trace (let '(o, tr2, w3) :=
                   run answer (tail2 svc r (failed_message rt) (succeeded_message rt)) w2 in
                 (o, (Called cred (Ok svc) :: tr ++ tr2)%list, w3))) = []).
  { intros m cause ->. rewrite run_writeErrorResponse.
    eexists; split; [reflexivity|]. split; [reflexivity|]. split; [reflexivity|].
    split.
    - unfold error_pair.
      destruct (member_error_envelope StatusBadRequest m cause (fst (answer Time Now w2)))
        as (_ & _ & _ & _ & -> & -> & _).
      destruct (classify cause); reflexivity.
    - unfold trace; simpl.
      change (patches (Called cred (Ok svc) :: ?l)) with (patches l).
      rewrite patches_app, Hn. reflexivity. }
  split; [|split].
  - intros err Hb. apply Hrej. apply run_patch_tail_unreadable, Hb.
  - intros body err Hb Hj. apply Hrej. apply (run_patch_tail_undecodable _ _ _ _ _ body err Hb Hj).
  - intros body payload Hb Hj Hp.
    apply (Hrej _ (AnyString "")).
    apply (run_patch_tail_bad_policy _ _ _ _ _ body payload Hb Hj Hp).
Qed.

(** X1. When the provider refuses the patch, [/start] and [/stop] answer 500
    with their own message, and the cause is handed to the formatter as it
    is: a [*googleapi.Error] is reported as [googleapi_<code>] with the
    provider's message (unlike a failure of the status read), any other
    error as [internal_error]. The response has no data, and the one patch
    made is the only one. *)
Theorem refused_patch_is_500_with_provider_code
  (rt : route) (r : Request) (w w1 w2 w3 : World) (svc : sqladmin.Service)
  (st : SQLInstancesData) (tr : list event) (body ap : string) (err : error) :
  rt <> RouteCheck ->
  Method r = "POST" ->
  answer _ cred w = (Ok svc, w1) ->
  run answer reader w1 = (Done (Ok st), tr, w2) ->
  (rt = RouteStop -> State st = "RUNNABLE") ->
  Body r = Ok body ->
  policy_of_body json_Unmarshal body = Some ap ->
  answer _ (InstancesPatch svc projectID instanceID (patch_body ap)) w2 = (Fail err, w3) ->
  exists resp : response,
    written (run answer (handle2 rt r) w) = Some resp
    /\ status resp = 500
    /\ message_of resp = Some (failed_message rt)
    /\ error_pair resp
       = Some (match err with
               | GoogleapiError g => ("googleapi_" ++ Sprintf_d (Code g), Message g)
               | _ => ("internal_error", Error err)
               end)
    /\ member resp "data" = None
    /\ patches (trace (run answer (handle2 rt r) w))
       = [(svc, projectID, instanceID, patch_body ap)].
Proof.
  intros Hrt Hm Ha Hs Hst Hb Hp Hpatch.
  rewrite (run_reaches_tail rt r w w1 w2 svc st tr Hrt Hm Ha Hs Hst).
  rewrite (run_patch_tail_accepted answer projectID instanceID json_Unmarshal
             svc r _ _ w2 body ap Hb Hp), Hpatch.
  pose proof (reader_patches_nothing w1 w2 _ tr Hs) as Hn.
  eexists; split; [reflexivity|]. split; [reflexivity|]. split; [reflexivity|].
  split; [|split; [reflexivity|]].
  - unfold error_pair.
    destruct (member_error_envelope StatusInternalServerError (failed_message rt)
                (AnyError err) (fst (answer Time Now w3)))
      as (_ & _ & _ & _ & -> & -> & _).
    destruct err; reflexivity.
  - unfold trace; simpl.
    change (patches (Called cred (Ok svc) :: ?l)) with (patches l).
    rewrite patches_app, Hn. reflexivity.
Qed.

(** X3. [/start] and [/stop] send the provider the policy the body names,
    whichever it is: with a valid body (and a [RUNNABLE] instance on
    [/stop]) exactly one patch is made, through the service of the
    handler's own authentication, for the configured project and instance,
    and its body sets the activation policy of the request and nothing
    else. In particular [/stop] with [ALWAYS] and [/start] with [NEVER] are
    passed on as they are. *)
Theorem valid_body_is_patched_as_it_is
  (rt : route) (r : Request) (w w1 w2 : World) (svc : sqladmin.Service)
  (st : SQLInstancesData) (tr : list event) (body ap : string) :
  rt <> RouteCheck ->
  Method r = "POST" ->
  answer _ cred w = (Ok svc, w1) ->
  run answer reader w1 = (Done (Ok st), tr, w2) ->
  (rt = RouteStop -> State st = "RUNNABLE") ->
  Body r = Ok body ->
  policy_of_body json_Unmarshal body = Some ap ->
  patches (trace (run answer (handle2 rt r) w))
  = [(svc, projectID, instanceID,
      {| sqladmin.Name := ""; sqladmin.DatabaseVersion := ""; sqladmin.Region := "";
         sqladmin.State := "";
         sqladmin.Settings_ :=
           Some {| sqladmin.ActivationPolicy := ap; sqladmin.Tier := "" |} |})]
  /\ (ap = "ALWAYS" \/ ap = "NEVER")
  /\ (exists payload : gmap string json,
        json_Unmarshal body = Ok payload
        /\ payload !! "ActivationPolicy" = Some (JString ap)).
Proof.
  intros Hrt Hm Ha Hs Hst Hb Hp.
  rewrite (run_reaches_tail rt r w w1 w2 svc st tr Hrt Hm Ha Hs Hst).
  rewrite (run_patch_tail_accepted answer projectID instanceID json_Unmarshal
             svc r _ _ w2 body ap Hb Hp).
  pose proof (reader_patches_nothing w1 w2 _ tr Hs) as Hn.
  destruct (answer _ (InstancesPatch svc projectID instanceID (patch_body ap)) w2)
    as [x w3].
  split.
  - unfold trace; simpl.
    change (patches (Called cred (Ok svc) :: ?l)) with (patches l).
    rewrite patches_app, Hn. reflexivity.
  - unfold policy_of_body in Hp.
    destruct (json_Unmarshal body) as [payload | e]; [|discriminate].
    destruct (payload !! "ActivationPolicy") as [[ | b | n | s | l | m] | ] eqn:Hl;
      try discriminate.
    destruct (bool_decide_reflect (s = "ALWAYS" \/ s = "NEVER")) as [Hs' | Hs'];
      [|discriminate].
    injection Hp as <-. split; [exact Hs' | exists payload; split; [reflexivity | exact Hl]].
Qed.

Lemma policy_values (body ap : string) :
  policy_of_body json_Unmarshal body = Some ap -> ap = "ALWAYS" \/ ap = "NEVER".
Proof.
  unfold policy_of_body.
  destruct (json_Unmarshal body) as [payload | e]; [|discriminate].
  destruct (payload !! "ActivationPolicy") as [[ | b | n | s | l | m] | ];
    try discriminate.
  destruct (bool_decide_reflect (s = "ALWAYS" \/ s = "NEVER")) as [Hs | Hs];
    [|discriminate].
  intros [= <-]. exact Hs.
Qed.

(** The two ways the common tail can go. *)
Lemma run_patch_tail_cases svc r failed succeeded (w : World) :
  (exists (m : string) (cause : any),
      (forall body : string, Body r = Ok body -> policy_of_body json_Unmarshal body = None)
      /\ run answer (tail2 svc r failed succeeded) w
         = (Done (error_envelope StatusBadRequest m cause (fst (answer _ Now w))),
            [Called Now (fst (answer _ Now w))], snd (answer _ Now w)))
  \/ (exists (body ap : string) (x : result sqladmin.Operation) (w1 : World),
        Body r = Ok body
        /\ policy_of_body json_Unmarshal body = Some ap
        /\ answer _ (InstancesPatch svc projectID instanceID (patch_body ap)) w = (x, w1)
        /\ run answer (tail2 svc r failed succeeded) w
           = (Done match x with
                   | Fail err =>
                       error_envelope StatusInternalServerError failed (AnyError err)
                         (fst (answer _ Now w1))
                   | Ok operation =>
                       success_envelope StatusOK succeeded (FOperation operation)
                         (fst (answer _ Now w1))
                   end,
              [Called (InstancesPatch svc projectID instanceID (patch_body ap)) x;
               Called Now (fst (answer _ Now w1))],
              snd (answer _ Now w1))).
Proof.
  destruct (Body r) as [body | err] eqn:Hb.
  - destruct (policy_of_body json_Unmarshal body) as [ap |] eqn:Hp.
    + right.
      destruct (answer _ (InstancesPatch svc projectID instanceID (patch_body ap)) w)
        as [x w1] eqn:Hx.
      exists body, ap, x, w1. split; [reflexivity|]. split; [exact Hp|].
      split; [exact Hx|].
      rewrite (run_patch_tail_accepted answer projectID instanceID json_Unmarshal
                 svc r _ _ w body ap Hb Hp), Hx. reflexivity.
    + left.
      destruct (run_patch_tail_rejected answer projectID instanceID json_Unmarshal
                  svc r failed succeeded w body Hb Hp) as (m & cause & _ & ->).
      exists m, cause. split; [intros b [= <-]; exact Hp|].
      apply run_writeErrorResponse.
  - left. eexists _, _. split; [intros b [=]|].
    rewrite (run_patch_tail_unreadable answer projectID instanceID json_Unmarshal
               svc r failed succeeded w err Hb).
    apply run_writeErrorResponse.
Qed.

(** The case analysis of a run of a handler: method, the two
    authentications, the status read, the settings, and then the route. *)
Ltac handler_cases rt r w :=
  let Hm := fresh "Hm" in
  let Ha := fresh "Ha" in
  let Ha2 := fresh "Ha2" in
  let Hg := fresh "Hg" in
  let Hset := fresh "Hset" in
  destruct (String.eqb_spec (Method r) (method_of rt)) as [Hm | Hm];
  [ destruct (answer _ cred w) as [[?svc | ?e] ?w1] eqn:Ha;
    [ rewrite (run_authenticated answer projectID instanceID json_Unmarshal
                 rt r w _ _ Hm Ha),
        (run_checkStatusInstances answer projectID instanceID);
      match goal with
      | |- context [answer _ cred ?w1] =>
          destruct (answer _ cred w1) as [[?svc2 | ?e1] ?w2] eqn:Ha2
      end;
      [ match goal with
        | |- context [answer _ (InstancesGet ?s ?p ?i) ?w2] =>
            destruct (answer _ (InstancesGet s p i) w2) as [[?inst | ?e2] ?w3] eqn:Hg
        end;
        [ match goal with
          | |- context [sqladmin.Settings_ ?inst] =>
              destruct (sqladmin.Settings_ inst) as [?settings | ] eqn:Hset
          end
        | cbv [after_status]; rewrite run_writeErrorResponse ]
      | cbv [after_status]; rewrite run_writeErrorResponse ]
    | rewrite (run_auth_failed answer projectID instanceID json_Unmarshal
                 rt r w _ _ Hm Ha) ]
  | rewrite (run_wrong_method answer projectID instanceID json_Unmarshal rt r w Hm),
      run_writeErrorResponse ].

(** The patches of a run, and what had to hold for one to be made. *)
Lemma patch_safety (rt : route) (r : Request) (w : World) :
  patches (trace (run answer (handle2 rt r) w)) = []
  \/ exists (svc : sqladmin.Service) (w1 w2 : World) (body ap : string)
       (st : SQLInstancesData) (tr : list event),
      rt <> RouteCheck
      /\ Method r = "POST"
      /\ answer _ cred w = (Ok svc, w1)
      /\ run answer reader w1 = (Done (Ok st), tr, w2)
      /\ (rt = RouteStop -> State st = "RUNNABLE")
      /\ Body r = Ok body
      /\ policy_of_body json_Unmarshal body = Some ap
      /\ (ap = "ALWAYS" \/ ap = "NEVER")
      /\ patches (trace (run answer (handle2 rt r) w))
         = [(svc, projectID, instanceID, patch_body ap)].
Proof.
  handler_cases rt r w; try (left; reflexivity).
  assert (Hread : run answer reader w1
                  = (Done (Ok (snapshot inst settings)),
                     [Called cred (Ok svc2);
                      Called (InstancesGet svc2 projectID instanceID) (Ok inst)], w3))
    by (apply (run_checkStatusInstances_ok answer projectID instanceID
                 w1 w2 w3 svc2 inst settings Ha2 Hg Hset)).
  assert (Htail : forall failed succeeded,
    rt <> RouteCheck -> Method r = "POST" ->
    (rt = RouteStop -> sqladmin.State inst = "RUNNABLE") ->
    let o := (let '(o, tr2, w4) := run answer (tail2 svc r failed succeeded) w3 in
              (o, (Called cred (Ok svc)
                   :: [Called cred (Ok svc2);
                       Called (InstancesGet svc2 projectID instanceID) (Ok inst)]
                   ++ tr2)%list, w4)) in
    patches (trace o) = []
    \/ exists (svc' : sqladmin.Service) (w1' w2' : World) (body ap : string)
         (st : SQLInstancesData) (tr : list event),
        rt <> RouteCheck
        /\ Method r = "POST"
        /\ (Ok svc, w1) = (Ok svc', w1')
        /\ run answer reader w1' = (Done (Ok st), tr, w2')
        /\ (rt = RouteStop -> State st = "RUNNABLE")
        /\ Body r = Ok body
        /\ policy_of_body json_Unmarshal body = Some ap
        /\ (ap = "ALWAYS" \/ ap = "NEVER")
        /\ patches (trace o) = [(svc', projectID, instanceID, patch_body ap)]).
  { intros failed succeeded Hrt Hpost Hrun.
    destruct (run_patch_tail_cases svc r failed succeeded w3)
      as [(m & cause & _ & ->) | (body & ap & x & w4 & Hb & Hp & Hx & ->)].
    - left. reflexivity.
    - right. eexists svc, w1, w3, body, ap, (snapshot inst settings), _.
      split; [exact Hrt|]. split; [exact Hpost|]. split; [reflexivity|].
      split; [exact Hread|]. split; [exact Hrun|]. split; [exact Hb|].
      split; [exact Hp|]. split; [exact (policy_values body ap Hp)|]. reflexivity. }
  destruct rt; cbv [after_status].
  - cbn [State].
    destruct (String.eqb_spec (sqladmin.State inst) "RUNNABLE") as [Hst | Hst]; cbv [negb].
    + apply Htail; [discriminate | exact Hm | intros _; exact Hst].
    + rewrite run_writeErrorResponse. left. reflexivity.
  - apply Htail; [discriminate | exact Hm | intros [=]].
  - rewrite run_writeSuccessResponse. left. reflexivity.
Qed.

(** X4. A handler never patches unasked: whatever the request and whatever
    the provider answers, a run makes no patch at all, or exactly one, and
    then the route is [/start] or [/stop], the method POST, the body names
    the policy [ALWAYS] or [NEVER], the patch carries that policy for the
    configured project and instance through the handler's own service, the
    status read has succeeded before, and on [/stop] it has read
    [RUNNABLE]. *)
Theorem patch_only_for_a_valid_policy (rt : route) (r : Request) (w : World) :
  patches (trace (run answer (handle2 rt r) w)) = []
  \/ exists (svc : sqladmin.Service) (w1 w2 : World) (body ap : string)
       (st : SQLInstancesData) (tr : list event),
      rt <> RouteCheck
      /\ Method r = "POST"
      /\ answer _ cred w = (Ok svc, w1)
      /\ run answer reader w1 = (Done (Ok st), tr, w2)
      /\ (rt = RouteStop -> State st = "RUNNABLE")
      /\ Body r = Ok body
      /\ policy_of_body json_Unmarshal body = Some ap
      /\ (ap = "ALWAYS" \/ ap = "NEVER")
      /\ patches (trace (run answer (handle2 rt r) w))
         = [(svc, projectID, instanceID, patch_body ap)].
Proof. exact (patch_safety rt r w). Qed.

(** The case analysis of the common tail, in a goal about its run. *)
Ltac tail_cases :=
  match goal with
  | |- context [run answer (patch_tail _ _ _ ?s ?r ?f ?su) ?w] =>
      let Hrun := fresh "Hrun" in
      destruct (run_patch_tail_cases s r f su w)
        as [(?m & ?cause & _ & Hrun) | (?body & ?ap & ?x & ?w4 & _ & _ & _ & Hrun)];
      rewrite Hrun; clear Hrun
  end.

(** The case analysis of what follows a successful status read. *)
Ltac route_cases rt :=
  destruct rt; cbv [after_status]; cbn [State];
  [ match goal with
    | |- context [String.eqb ?s "RUNNABLE"] => destruct (String.eqb s "RUNNABLE")
    end; cbv [negb]; [tail_cases | rewrite run_writeErrorResponse]
  | tail_cases
  | rewrite run_writeSuccessResponse ].


(** X6. An instance that the provider returns without settings makes the
    handler panic in the status reader, on every route: after the two
    authentications and the status read nothing more is called and no
    response is written, whatever the state of the instance and whatever
    the body. *)
Theorem instance_without_settings_panics
  (rt : route) (r : Request) (w w1 w2 w3 : World) (svc svc2 : sqladmin.Service)
  (inst : sqladmin.DatabaseInstance) :
  Method r = method_of rt ->
  answer _ cred w = (Ok svc, w1) ->
  answer _ cred w1 = (Ok svc2, w2) ->
  answer _ (InstancesGet svc2 projectID instanceID) w2 = (Ok inst, w3) ->
  sqladmin.Settings_ inst = None ->
  run answer (handle2 rt r) w
  = (Panicked "invalid memory address or nil pointer dereference",
     [Called cred (Ok svc); Called cred (Ok svc2);
      Called (InstancesGet svc2 projectID instanceID) (Ok inst)], w3)
  /\ written (run answer (handle2 rt r) w) = None.
Proof.
  intros Hm Ha Ha2 Hg Hset.
  rewrite (run_authenticated answer projectID instanceID json_Unmarshal rt r w w1 svc Hm Ha),
    (run_checkStatusInstances answer projectID instanceID), Ha2, Hg, Hset.
  split; reflexivity.
Qed.

(** X7. The status reader authenticates on its own, and its failures are
    lookup failures: when the handler could authenticate but the reader
    cannot, the answer is 500 (not 401) with the description
    [failed to find Service Account: ] followed by the error text, and the
    status is never read; when the read itself fails, the description is
    [failed to get instance details, instances not found.: ] followed by the
    error text, and the read was made with the reader's own service for the
    configured project and instance. *)
Theorem reader_failures_are_lookup_failures
  (rt : route) (r : Request) (w w1 : World) (svc : sqladmin.Service) :
  Method r = method_of rt ->
  answer _ cred w = (Ok svc, w1) ->
  (forall (e : error) (w2 : World),
      answer _ cred w1 = (Fail e, w2) ->
      exists resp : response,
        written (run answer (handle2 rt r) w) = Some resp
        /\ status resp = 500
        /\ message_of resp = Some "Instances not found."
        /\ error_pair resp
           = Some ("internal_error", "failed to find Service Account: " ++ Error e)
        /\ kinds (run answer (handle2 rt r) w) = [KAuth; KAuth; KNow]
        /\ status_reads (trace (run answer (handle2 rt r) w)) = [])
  /\ (forall (svc2 : sqladmin.Service) (e : error) (w2 w3 : World),
        answer _ cred w1 = (Ok svc2, w2) ->
        answer _ (InstancesGet svc2 projectID instanceID) w2 = (Fail e, w3) ->
        exists resp : response,
          written (run answer (handle2 rt r) w) = Some resp
          /\ status resp = 500
          /\ message_of resp = Some "Instances not found."
          /\ error_pair resp
             = Some ("internal_error",
                     "failed to get instance details, instances not found.: " ++ Error e)
          /\ kinds (run answer (handle2 rt r) w) = [KAuth; KAuth; KGet; KNow]
          /\ status_reads (trace (run answer (handle2 rt r) w))
             = [(svc2, projectID, instanceID)]).
Proof.
  intros Hm Ha.
  rewrite (run_authenticated answer projectID instanceID json_Unmarshal rt r w w1 svc Hm Ha),
    (run_checkStatusInstances answer projectID instanceID).
  split.
  - intros e w2 ->. cbv [after_status]. rewrite run_writeErrorResponse.
    eexists; repeat split.
  - intros svc2 e w2 w3 -> ->. cbv [after_status]. rewrite run_writeErrorResponse.
    eexists; repeat split.
Qed.

Lemma members_success_envelope statusCode message data now :
  members (success_envelope statusCode message data now)
  = {[ "data"; "status_code"; "status_text"; "message"; "timestamp" ]}.
Proof.
  unfold members, success_envelope; simpl.
  rewrite !dom_insert_L, dom_singleton_L. set_solver.
Qed.

Lemma members_error_envelope statusCode message err now :
  members (error_envelope statusCode message err now)
  = {[ "status_code"; "status_text"; "message"; "timestamp"; "error_type";
       "error_description" ]}.
Proof.
  unfold members, error_envelope; simpl.
  rewrite !dom_insert_L, dom_singleton_L. set_solver.
Qed.

(** X8. A response is one of two shapes, told apart by the status: with
    status 200 it has exactly the members [data], [status_code],
    [status_text], [message] and [timestamp]; with status 400, 401, 405 or
    500 it has exactly [status_code], [status_text], [message],
    [timestamp], [error_type] and [error_description], and no data. Either
    way it is sent as [application/json]. *)
Theorem responses_have_one_of_two_shapes
  (rt : route) (r : Request) (w : World) (resp : response) :
  written (run answer (handle2 rt r) w) = Some resp ->
  content_type resp = "application/json"
  /\ ((status resp = 200
       /\ members resp
          = {[ "data"; "status_code"; "status_text"; "message"; "timestamp" ]})
      \/ (In (status resp) [400; 401; 405; 500]
          /\ members resp
             = {[ "status_code"; "status_text"; "message"; "timestamp"; "error_type";
                  "error_description" ]})).
Proof.
  handler_cases rt r w; [route_cases rt | | | | |];
    try match goal with
        | |- context [match ?x with Ok _ => _ | Fail _ => _ end] => destruct x
        end;
    intros [= <-];
    (split; [reflexivity|]);
    first [ left; split; [reflexivity | apply members_success_envelope]
          | right; split; [simpl; tauto | apply members_error_envelope] ].
Qed.

End MoreHandlerFacts.

(** * Start-up *)

(** X9. The [.env] file only counts in local mode, and only when it loads:
    when [ENV] is not [local], or when loading fails, the configuration is
    the one an empty file would give, that is, the environment's alone. A
    failed load is logged once and start-up goes on; outside local mode
    nothing is logged. *)
Theorem file_only_counts_in_local_mode_when_it_loads
  (dotenv : result (gmap string string)) (env : gmap string string) :
  Boot.Getenv env "ENV" <> "local" \/ (exists e : error, dotenv = Fail e) ->
  fst (Boot.init dotenv env) = fst (Boot.init (Ok ∅) env)
  /\ Boot.projectID (fst (Boot.init dotenv env)) = Boot.Getenv env "PROJECT_ID"
  /\ Boot.instanceID (fst (Boot.init dotenv env)) = Boot.Getenv env "INSTANCE_ID"
  /\ snd (Boot.init dotenv env)
     = (if String.eqb (Boot.Getenv env "ENV") "local"
        then ["Error loading .env file"] else []).
Proof.
  intros H. unfold Boot.init, Boot.godotenv_Load.
  destruct (String.eqb_spec (Boot.Getenv env "ENV") "local") as [Hl | Hl].
  - destruct H as [H | [e ->]]; [contradiction|].
    rewrite (right_id_L ∅ (∪) env). repeat split.
  - repeat split.
Qed.

(** X10. A variable set in the environment is never overridden by the file:
    in every mode and for every file, [PROJECT_ID] and [INSTANCE_ID] set in
    the environment are the configured ones, even when set to the empty
    string; the file supplies a variable only in local mode and only when
    the environment does not have it. *)
Theorem environment_wins_over_file
  (dotenv : result (gmap string string)) (env : gmap string string) :
  (forall v : string,
      env !! "PROJECT_ID" = Some v -> Boot.projectID (fst (Boot.init dotenv env)) = v)
  /\ (forall v : string,
        env !! "INSTANCE_ID" = Some v -> Boot.instanceID (fst (Boot.init dotenv env)) = v)
  /\ (forall vars : gmap string string,
        Boot.Getenv env "ENV" = "local" ->
        dotenv = Ok vars ->
        (env !! "PROJECT_ID" = None ->
         Boot.projectID (fst (Boot.init dotenv env)) = Boot.Getenv vars "PROJECT_ID")
        /\ (env !! "INSTANCE_ID" = None ->
            Boot.instanceID (fst (Boot.init dotenv env)) = Boot.Getenv vars "INSTANCE_ID")).
Proof.
  assert (Hwin : forall (vars : gmap string string) (k v : string),
             env !! k = Some v -> Boot.Getenv (env ∪ vars) k = v).
  { intros vars k v Hk. unfold Boot.Getenv.
    rewrite (lookup_union_Some_l env vars k v Hk). reflexivity. }
  assert (Hset : forall (k v : string), env !! k = Some v -> Boot.Getenv env k = v).
  { intros k v Hk. unfold Boot.Getenv. rewrite Hk. reflexivity. }
  assert (Hfile : forall (vars : gmap string string) (k : string),
             env !! k = None -> Boot.Getenv (env ∪ vars) k = Boot.Getenv vars k).
  { intros vars k Hk. unfold Boot.Getenv.
    rewrite (lookup_union_r env vars k Hk). reflexivity. }
  unfold Boot.init, Boot.godotenv_Load.
  split; [|split].
  - intros v Hv. destruct (String.eqb _ "local"); [destruct dotenv|]; simpl; auto.
  - intros v Hv. destruct (String.eqb _ "local"); [destruct dotenv|]; simpl; auto.
  - intros vars Hl ->. apply String.eqb_eq in Hl. rewrite Hl. simpl.
    split; intros Hk; apply Hfile, Hk.
Qed.

(** X11. The server always has a port to listen on: the address is a colon
    followed by a port that is never empty, the banner names the same port;
    the port is the [PORT] of the environment when that is set and not
    empty, and 80 when [PORT] is set to the empty string, or is set nowhere
    (not in the environment, and the file is not loaded or does not have
    it). *)
Theorem server_always_has_a_port
  (dotenv : result (gmap string string)) (env : gmap string string) :
  exists p : string,
    p <> ""
    /\ Boot.port (fst (Boot.init dotenv env)) = p
    /\ Boot.address (Boot.main (fst (Boot.init dotenv env))) = ":" ++ p
    /\ Boot.banner (Boot.main (fst (Boot.init dotenv env)))
       = "Server running at http://localhost:" ++ p
    /\ (forall v : string,
          env !! "PORT" = Some v -> p = if String.eqb v "" then "80" else v)
    /\ (env !! "PORT" = None ->
        Boot.Getenv env "ENV" <> "local"
        \/ (exists e : error, dotenv = Fail e)
        \/ (exists vars : gmap string string, dotenv = Ok vars /\ vars !! "PORT" = None) ->
        p = "80").
Proof.
  eexists; split; [|split; [reflexivity|split; [reflexivity|split; [reflexivity|]]]].
  - unfold Boot.init. destruct (String.eqb _ "local"); [destruct (Boot.godotenv_Load _ _) as [e [?|]]|];
      simpl; match goal with |- (if String.eqb ?x "" then _ else _) <> _ =>
               destruct (String.eqb_spec x ""); [discriminate | assumption] end.
  - unfold Boot.init, Boot.godotenv_Load, Boot.Getenv. split.
    + intros v Hv.
      destruct (String.eqb _ "local"); [destruct dotenv as [vars | e]|]; simpl;
        rewrite ?(lookup_union_Some_l env _ "PORT" v Hv), ?Hv; reflexivity.
    + intros Hnone Hcase.
      destruct (String.eqb_spec (default "" (env !! "ENV")) "local") as [Hl | Hl].
      * destruct Hcase as [Hc | [[e ->] | (vars & -> & Hv)]]; [contradiction| |]; simpl.
        -- rewrite Hnone. reflexivity.
        -- rewrite (lookup_union_r env vars "PORT" Hnone), Hv. reflexivity.
      * simpl. rewrite Hnone. reflexivity.
Qed.

(** X12. Across the whole service, with [path] the request's [r.URL.Path]:
    a handler runs exactly when the path is [/stop], [/start] or [/check],
    and it is the handler of that path, for the project and the instance of
    the configuration; any other path runs none of them. On [/check]
    nothing is ever patched; a patch is made only by a POST on [/start] or
    [/stop], one at most, for the configured project and instance, with the
    policy [ALWAYS] or [NEVER]. *)
Theorem service_patches_only_on_start_and_stop {World : Type}
  (answer : forall X : Type, call X -> World -> X * World)
  (cfg : Boot.Config) (json_Unmarshal : string -> result (gmap string json))
  (path : string) (r : Request) (w : World) :
  (Boot.serve cfg json_Unmarshal path r = None
   <-> path <> "/stop" /\ path <> "/start" /\ path <> "/check")
  /\ (forall p : prog response,
        Boot.serve cfg json_Unmarshal path r = Some p ->
        ((path = "/stop"
          /\ p = stopInstancesHandler (Boot.projectID cfg) (Boot.instanceID cfg)
                   json_Unmarshal r)
         \/ (path = "/start"
             /\ p = startInstanceHandler (Boot.projectID cfg) (Boot.instanceID cfg)
                      json_Unmarshal r)
         \/ (path = "/check"
             /\ p = checkInstancesHandler (Boot.projectID cfg) (Boot.instanceID cfg) r
             /\ patches (trace (run answer p w)) = []))
        /\ (patches (trace (run answer p w)) = []
            \/ ((path = "/start" \/ path = "/stop")
                /\ Method r = "POST"
                /\ exists (svc : sqladmin.Service) (ap : string),
                     (ap = "ALWAYS" \/ ap = "NEVER")
                     /\ patches (trace (run answer p w))
                        = [(svc, Boot.projectID cfg, Boot.instanceID cfg, patch_body ap)]))).
Proof.
  assert (Hsafe : forall rt : route,
    (rt <> RouteCheck -> path = "/start" \/ path = "/stop") ->
    patches (trace (run answer
                      (handler (Boot.projectID cfg) (Boot.instanceID cfg) json_Unmarshal rt r)
                      w)) = []
    \/ ((path = "/start" \/ path = "/stop")
        /\ Method r = "POST"
        /\ exists (svc : sqladmin.Service) (ap : string),
             (ap = "ALWAYS" \/ ap = "NEVER")
             /\ patches (trace (run answer
                                  (handler (Boot.projectID cfg) (Boot.instanceID cfg)
                                     json_Unmarshal rt r) w))
                = [(svc, Boot.projectID cfg, Boot.instanceID cfg, patch_body ap)])).
  { intros rt Hpath.
    destruct (patch_safety answer (Boot.projectID cfg) (Boot.instanceID cfg)
                json_Unmarshal rt r w)
      as [Hnone | (svc & w1 & w2 & body & ap & st & tr & Hrt & Hm & _ & _ & _ & _ & _
                   & Hap & Hp)].
    - left. exact Hnone.
    - right. split; [exact (Hpath Hrt)|]. split; [exact Hm|].
      exists svc, ap. split; [exact Hap | exact Hp]. }
  assert (Hcheck_reads_only :
    patches (trace (run answer
                      (handler (Boot.projectID cfg) (Boot.instanceID cfg) json_Unmarshal
                         RouteCheck r) w)) = []).
  { destruct (patch_safety answer (Boot.projectID cfg) (Boot.instanceID cfg)
                json_Unmarshal RouteCheck r w)
      as [Hnone | (svc & w1 & w2 & body & ap & st & tr & Hrt & _)].
    - exact Hnone.
    - contradiction. }
  unfold Boot.serve, Boot.served, Boot.main. cbn -[String.eqb].
  destruct (String.eqb_spec "/stop" path) as [<- | Hstop]; cbn -[String.eqb].
  { split; [split; [discriminate | intros (H & _); contradiction]|].
    intros p [= <-]. split; [left; split; reflexivity|].
    apply (Hsafe RouteStop). intros _; right; reflexivity. }
  destruct (String.eqb_spec "/start" path) as [<- | Hstart]; cbn -[String.eqb].
  { split; [split; [discriminate | intros (_ & H & _); contradiction]|].
    intros p [= <-]. split; [right; left; split; reflexivity|].
    apply (Hsafe RouteStart). intros _; left; reflexivity. }
  destruct (String.eqb_spec "/check" path) as [<- | Hcheck]; cbn -[String.eqb].
  { split; [split; [discriminate | intros (_ & _ & H); contradiction]|].
    intros p [= <-].
    split; [right; right; split; [reflexivity | split; [reflexivity | exact Hcheck_reads_only]]|].
    left. exact Hcheck_reads_only. }
  split; [|intros p [=]].
  split; [intros _; split; [|split]; congruence | reflexivity].
Qed.

(** * The further properties at work on the demo service *)

Lemma refused_patch_is_500_with_provider_code_witness :
  exists resp : response,
    written (demo patch_refused RouteStop (post never_body)) = Some resp
    /\ status resp = 500
    /\ message_of resp = Some "Failed to stop instance."
    /\ error_pair resp
       = Some ("googleapi_403", "The client is not authorized to make this request.")
    /\ member resp "data" = None
    /\ patches (trace (demo patch_refused RouteStop (post never_body)))
       = [(1%nat, "demo", "db-main", patch_body "NEVER")].
Proof.
  eapply (refused_patch_is_500_with_provider_code (scripted patch_refused)
            "demo" "db-main" sample_Unmarshal RouteStop (post never_body)
            0%nat 1%nat 2%nat 2%nat 1%nat running _ never_body "NEVER"
            (GoogleapiError forbidden));
    first [discriminate | reflexivity].
Defined.

Lemma body_failures_are_told_apart_witness :
  (exists resp : response,
      written (demo (healthy "RUNNABLE") RouteStart broken_post) = Some resp
      /\ status resp = 400
      /\ message_of resp = Some "Failed to read request body."
      /\ error_pair resp = Some ("internal_error", "unexpected EOF")
      /\ patches (trace (demo (healthy "RUNNABLE") RouteStart broken_post)) = [])
  /\ (exists resp : response,
        written (demo (healthy "RUNNABLE") RouteStop (post "")) = Some resp
        /\ status resp = 400
        /\ message_of resp = Some "Invalid JSON format."
        /\ error_pair resp = Some ("internal_error", "unexpected end of JSON input")
        /\ patches (trace (demo (healthy "RUNNABLE") RouteStop (post ""))) = [])
  /\ (exists resp : response,
        written (demo (healthy "RUNNABLE") RouteStop (post lowercase_body)) = Some resp
        /\ status resp = 400
        /\ message_of resp
           = Some "Invalid value for ActivationPolicy. Must be 'ALWAYS' or 'NEVER'."
        /\ error_pair resp = Some ("internal_error", "")
        /\ patches (trace (demo (healthy "RUNNABLE") RouteStop (post lowercase_body))) = []).
Proof.
  split; [|split].
  - eapply (proj1 (body_failures_are_told_apart (scripted (healthy "RUNNABLE"))
                     "demo" "db-main" sample_Unmarshal RouteStart broken_post
                     0%nat 1%nat 2%nat 1%nat running _ _ eq_refl eq_refl eq_refl _)
              (ErrorString "unexpected EOF") eq_refl).
  - eapply (proj1 (proj2 (body_failures_are_told_apart (scripted (healthy "RUNNABLE"))
                     "demo" "db-main" sample_Unmarshal RouteStop (post "")
                     0%nat 1%nat 2%nat 1%nat running _ _ eq_refl eq_refl eq_refl _))
              "" (ErrorString "unexpected end of JSON input") eq_refl eq_refl).
  - eapply (proj2 (proj2 (body_failures_are_told_apart (scripted (healthy "RUNNABLE"))
                     "demo" "db-main" sample_Unmarshal RouteStop (post lowercase_body)
                     0%nat 1%nat 2%nat 1%nat running _ _ eq_refl eq_refl eq_refl _))
              lowercase_body {[ "ActivationPolicy" := JString "always" ]}
              eq_refl eq_refl eq_refl).
  Unshelve.
  all: first [discriminate | reflexivity | intros; reflexivity].
Defined.

Lemma valid_body_is_patched_as_it_is_witness :
  patches (trace (demo (healthy "RUNNABLE") RouteStop (post always_body)))
  = [(1%nat, "demo", "db-main",
      {| sqladmin.Name := ""; sqladmin.DatabaseVersion := ""; sqladmin.Region := "";
         sqladmin.State := "";
         sqladmin.Settings_ :=
           Some {| sqladmin.ActivationPolicy := "ALWAYS"; sqladmin.Tier := "" |} |})]
  /\ ("ALWAYS" = "ALWAYS" \/ "ALWAYS" = "NEVER")
  /\ (exists payload : gmap string json,
        sample_Unmarshal always_body = Ok payload
        /\ payload !! "ActivationPolicy" = Some (JString "ALWAYS")).
Proof.
  eapply (valid_body_is_patched_as_it_is (scripted (healthy "RUNNABLE"))
            "demo" "db-main" sample_Unmarshal RouteStop (post always_body)
            0%nat 1%nat 2%nat 1%nat running _ always_body "ALWAYS");
    first [discriminate | reflexivity].
Defined.

Lemma instance_without_settings_panics_witness :
  demo no_settings RouteCheck get
  = (Panicked "invalid memory address or nil pointer dereference",
     [Called (NewService "service_account.json") (Ok 1%nat);
      Called (NewService "service_account.json") (Ok 2%nat);
      Called (InstancesGet 2%nat "demo" "db-main") (Ok bare_instance)], 2%nat)
  /\ written (demo no_settings RouteCheck get) = None.
Proof.
  apply (instance_without_settings_panics (scripted no_settings)
           "demo" "db-main" sample_Unmarshal RouteCheck get
           0%nat 1%nat 2%nat 2%nat 1%nat 2%nat bare_instance);
    reflexivity.
Defined.

Lemma reader_failures_are_lookup_failures_witness :
  (exists resp : response,
      written (demo reader_locked_out RouteCheck get) = Some resp
      /\ status resp = 500
      /\ message_of resp = Some "Instances not found."
      /\ error_pair resp
         = Some ("internal_error",
                 "failed to find Service Account: oauth2: cannot fetch token")
      /\ kinds (demo reader_locked_out RouteCheck get) = [KAuth; KAuth; KNow]
      /\ status_reads (trace (demo reader_locked_out RouteCheck get)) = [])
  /\ (exists resp : response,
        written (demo lookup_fails RouteStart (post always_body)) = Some resp
        /\ status resp = 500
        /\ message_of resp = Some "Instances not found."
        /\ error_pair resp
           = Some ("internal_error",
                   "failed to get instance details, instances not found.: "
                   ++ ErrorText not_found)
        /\ kinds (demo lookup_fails RouteStart (post always_body))
           = [KAuth; KAuth; KGet; KNow]
        /\ status_reads (trace (demo lookup_fails RouteStart (post always_body)))
           = [(2%nat, "demo", "db-main")]).
Proof.
  split.
  - apply (proj1 (reader_failures_are_lookup_failures (scripted reader_locked_out)
                    "demo" "db-main" sample_Unmarshal RouteCheck get 0%nat 1%nat 1%nat
                    eq_refl eq_refl)
             (ErrorString "oauth2: cannot fetch token") 2%nat eq_refl).
  - apply (proj2 (reader_failures_are_lookup_failures (scripted lookup_fails)
                    "demo" "db-main" sample_Unmarshal RouteStart (post always_body)
                    0%nat 1%nat 1%nat eq_refl eq_refl)
             2%nat (GoogleapiError not_found) 2%nat 2%nat eq_refl eq_refl).
Defined.

Lemma responses_have_one_of_two_shapes_witness :
  content_type policy_rejection = "application/json"
  /\ ((status policy_rejection = 200
       /\ members policy_rejection
          = {[ "data"; "status_code"; "status_text"; "message"; "timestamp" ]})
      \/ (In (status policy_rejection) [400; 401; 405; 500]
          /\ members policy_rejection
             = {[ "status_code"; "status_text"; "message"; "timestamp"; "error_type";
                  "error_description" ]})).
Proof.
  apply (responses_have_one_of_two_shapes (scripted (healthy "RUNNABLE"))
           "demo" "db-main" sample_Unmarshal RouteStart (post "{}") 0%nat).
  reflexivity.
Defined.

Lemma file_only_counts_in_local_mode_when_it_loads_witness :
  fst (Boot.init (Ok env_file) deployed_env) = fst (Boot.init (Ok ∅) deployed_env)
  /\ Boot.projectID (fst (Boot.init (Ok env_file) deployed_env)) = "demo"
  /\ Boot.instanceID (fst (Boot.init (Ok env_file) deployed_env)) = "db-main"
  /\ snd (Boot.init (Ok env_file) deployed_env) = [].
Proof.
  apply (file_only_counts_in_local_mode_when_it_loads (Ok env_file) deployed_env).
  left. discriminate.
Defined.

Lemma environment_wins_over_file_witness :
  Boot.projectID (fst (Boot.init (Ok env_file) local_env)) = ""
  /\ Boot.instanceID (fst (Boot.init (Ok env_file) local_env)) = "db-main".
Proof.
  pose proof (environment_wins_over_file (Ok env_file) local_env) as (Hp & _ & Hf).
  split.
  - exact (Hp "" eq_refl).
  - exact (proj2 (Hf env_file eq_refl eq_refl) eq_refl).
Defined.

Lemma server_always_has_a_port_witness :
  Boot.address (Boot.main (fst (Boot.init (Ok env_file) local_env))) = ":80"
  /\ Boot.address (Boot.main (fst (Boot.init (Ok env_file) deployed_env))) = ":8080".
Proof.
  split.
  - destruct (server_always_has_a_port (Ok env_file) local_env)
      as (p & _ & _ & -> & _ & Hv & _).
    rewrite (Hv "" eq_refl). reflexivity.
  - destruct (server_always_has_a_port (Ok env_file) deployed_env)
      as (p & _ & _ & -> & _ & Hv & _).
    rewrite (Hv "8080" eq_refl). reflexivity.
Defined.

(** The routes of the demo service on a healthy, running instance. *)
Example demo_service_orders :
  kinds (demo (healthy "RUNNABLE") RouteCheck get) = [KAuth; KAuth; KGet; KNow]
  /\ kinds (demo (healthy "RUNNABLE") RouteStop (post never_body))
     = [KAuth; KAuth; KGet; KPatch; KNow]
  /\ kinds (demo (healthy "STOPPED") RouteStop (post never_body))
     = [KAuth; KAuth; KGet; KNow]
  /\ kinds (demo no_credentials RouteStart (post always_body)) = [KAuth; KNow]
  /\ kinds (demo (healthy "RUNNABLE") RouteStart get) = [KNow].
Proof. repeat split. Qed.

(** The configuration of the demo service. *)
Definition demo_config : Boot.Config := fst (Boot.init (Ok env_file) deployed_env).

Lemma service_patches_only_on_start_and_stop_witness :
  Boot.serve demo_config sample_Unmarshal "/health" (post always_body) = None
  /\ Boot.serve demo_config sample_Unmarshal "/stop/" (post always_body) = None
  /\ Boot.serve demo_config sample_Unmarshal "/check" (post always_body)
     = Some (checkInstancesHandler "demo" "db-main" (post always_body))
  /\ patches (trace (run (scripted (healthy "RUNNABLE"))
                       (checkInstancesHandler "demo" "db-main" (post always_body))
                       0%nat)) = [].
Proof.
  pose proof (service_patches_only_on_start_and_stop (scripted (healthy "RUNNABLE"))
                demo_config sample_Unmarshal "/health" (post always_body) 0%nat)
    as (Hnone & _).
  pose proof (service_patches_only_on_start_and_stop (scripted (healthy "RUNNABLE"))
                demo_config sample_Unmarshal "/stop/" (post always_body) 0%nat)
    as (Hnone' & _).
  pose proof (service_patches_only_on_start_and_stop (scripted (healthy "RUNNABLE"))
                demo_config sample_Unmarshal "/check" (post always_body) 0%nat)
    as (_ & Hsome).
  split; [apply Hnone; repeat split; discriminate|].
  split; [apply Hnone'; repeat split; discriminate|].
  split; [reflexivity|].
  destruct (Hsome _ eq_refl) as ([(H & _) | [(H & _) | (_ & _ & Hp)]] & _);
    [discriminate H | discriminate H | exact Hp].
Defined.

(** The request the revision of C3 turns on: the empty object sent to
    [/start] when the provider returns an instance without settings. The
    handler panics in the status reader; nothing is written and nothing is
    patched. *)
Example invalid_policy_on_an_instance_without_settings :
  policy_of_body sample_Unmarshal "{}" = None
  /\ written (demo no_settings RouteStart (post "{}")) = None
  /\ patches (trace (demo no_settings RouteStart (post "{}"))) = []
  /\ kinds (demo no_settings RouteStart (post "{}")) = [KAuth; KAuth; KGet].
Proof. repeat split. Qed.
